(** * pymu: a cycle-stepped 6502 core (pymu.py), embedded in Rocq

    The Python program is translated definition by definition:
    - Python exceptions are values of [exn]; a call that can raise returns
      a sum [exn + A];
    - the one [bytearray] of the program is a [list Z] updated by index;
    - generator functions ([_read_pc], [_lda_imm], ..., [Cpu.run]) are
      resumable computations: running one up to its next [yield] gives
      back the state and the rest of the computation;
    - [Clock.tick] is a loop of [next] calls over the registered devices. *)

From Stdlib Require Import ZArith List Lia Bool String.
From stdpp Require Import base list.
Import ListNotations.

Local Open Scope Z_scope.

(** ** Python values and exceptions *)

(** [pathlib.Path]: all the program does with a path is to join the
    package directory with a file name and to print it. *)
Inductive Path : Type :=
| PathJoin (dir : string) (pathname : string).

(** The two f-strings of the program. *)
Inductive message : Type :=
| Bad_ROM_size (len : Z) (path : Path)   (* f"Bad ROM size: {len(data)} for {path}" *)
| Bad_opcode (opcode : Z).               (* f"Bad opcode {opcode:2x}" *)

Inductive exn : Type :=
| IndexError
| ValueError
| OSError (path : Path)
| RuntimeError (msg : message)
| StopIteration.

(** A Python object that is either a [bool] or an [int]; [bool] is a
    subclass of [int] with [True == 1] and [False == 0]. *)
Inductive pyval : Type :=
| PyBool (b : bool)
| PyInt (n : Z).

Definition py_int (v : pyval) : Z :=
  match v with
  | PyBool true => 1
  | PyBool false => 0
  | PyInt n => n
  end.

(** [v == w] on bools and ints. *)
Definition py_eq (v w : pyval) : bool := py_int v =? py_int w.

(** [bool(v)], the truth value. *)
Definition py_truth (v : pyval) : bool := negb (py_int v =? 0).

(** [isinstance(v, bool)]. *)
Definition py_is_bool (v : pyval) : bool :=
  match v with
  | PyBool _ => true
  | PyInt _ => false
  end.

(** Index normalisation of Python sequences: a negative index counts
    from the end; anything still outside [0, len) is an [IndexError]. *)
Definition py_index (len i : Z) : exn + nat :=
  let j := if i <? 0 then i + len else i in
  if (j <? 0) || (len <=? j) then inl IndexError else inr (Z.to_nat j).

(** [b[i]] on a bytearray. *)
Definition bytearray_getitem (b : list Z) (i : Z) : exn + Z :=
  match py_index (Z.of_nat (length b)) i with
  | inl e => inl e
  | inr j =>
      match b !! j with
      | Some x => inr x
      | None => inl IndexError
      end
  end.

(** [b[i] = v] on a bytearray: the value has to be in [range(0, 256)]
    and the index in range.  CPython converts the value before it
    checks the index (since 3.11; older versions check the index
    first), so when both are wrong the exception is ValueError here.
    No property below depends on that order. *)
Definition bytearray_setitem (b : list Z) (i v : Z) : exn + list Z :=
  if (v <? 0) || (255 <? v) then inl ValueError
  else
    match py_index (Z.of_nat (length b)) i with
    | inl e => inl e
    | inr j => inr (<[j := v]> b)
    end.

(** ** class Memory *)

(** The class body [_ram: bytearray = bytearray(65536)] runs once and
    binds ONE bytearray to the class attribute [Memory._ram].  The class
    has no [__init__] and no method rebinds [self._ram], so an instance
    carries no attribute of its own: [self._ram] resolves, for every
    instance, to the class attribute.  An instance is therefore only an
    identity, and the methods act on the class-level bytearray, which is
    threaded explicitly as [ram]. *)
Record Memory : Type := { Memory_id : nat }.

(** [bytearray(65536)] *)
Definition Memory__ram_initial : list Z := replicate (Z.to_nat 65536) 0.

Definition read_byte (self : Memory) (offset : Z) (ram : list Z) : exn + Z :=
  bytearray_getitem ram (Z.land offset 0xffff).

Definition read_word (self : Memory) (offset : Z) (ram : list Z) : exn + Z :=
  match read_byte self offset ram with
  | inl e => inl e
  | inr lo =>
      match read_byte self (offset + 1) ram with
      | inl e => inl e
      | inr hi => inr (lo + 256 * hi)
      end
  end.

Definition write_byte (self : Memory) (offset value : Z) (ram : list Z)
  : exn + list Z :=
  if offset <? 0x8000 then bytearray_setitem ram offset value
  else inr ram.

(** [for i in range(len(data)): self._ram[0xc000 + i] = data[i]].
    The bytearray is mutated in place, so when an assignment raises the
    stores made before it stay: the loop returns the bytearray as it is
    when it stops, with the exception if there is one. *)
Fixpoint load_os_loop (data : list Z) (range : list nat) (ram : list Z)
  : list Z * option exn :=
  match range with
  | [] => (ram, None)
  | i :: range' =>
      match data !! i with
      | None => (ram, Some IndexError)
      | Some d =>
          match bytearray_setitem ram (0xc000 + Z.of_nat i) d with
          | inl e => (ram, Some e)
          | inr ram' => load_os_loop data range' ram'
          end
      end
  end.

Definition load_os (self : Memory) (data : list Z) (ram : list Z)
  : list Z * option exn :=
  load_os_loop data (seq 0 (length data)) ram.

(** The invariant of the class-level bytearray: 65536 items, each a
    byte.  It is a boolean so that it can be evaluated. *)
Definition is_byte (x : Z) : bool := (0 <=? x) && (x <? 256).

Definition ram_ok (ram : list Z) : bool :=
  (Z.of_nat (length ram) =? 65536) && forallb is_byte ram.

(** ** class Flags *)

(** The class attributes are the defaults ([False]); [self.zero = ...]
    binds an attribute of the instance, so the four flags are per
    instance.  [zero] and [negative] hold whatever [setzn] stores in
    them, a Python object; the other two only ever receive the literals
    [True] and [False]. *)
Record Flags : Type := {
  zero : pyval;
  negative : pyval;
  irq_disable : bool;
  decimal : bool
}.

Definition Flags_new : Flags :=
  {| zero := PyBool false; negative := PyBool false;
     irq_disable := false; decimal := false |}.

(** [self.zero = value == 0; self.negative = value & 0x80] *)
Definition setzn (self : Flags) (value : Z) : Flags :=
  {| zero := PyBool (value =? 0);
     negative := PyInt (Z.land value 0x80);
     irq_disable := irq_disable self;
     decimal := decimal self |}.

(** ** class Cpu *)

Record Cpu : Type := {
  _memory : Memory;
  _flags : Flags;
  _a : Z;
  _x : Z;
  _y : Z;
  _s : Z;
  _pc : Z
}.

Definition set_flags (c : Cpu) (f : Flags) : Cpu :=
  {| _memory := _memory c; _flags := f; _a := _a c; _x := _x c;
     _y := _y c; _s := _s c; _pc := _pc c |}.

Definition set_a (c : Cpu) (a : Z) : Cpu :=
  {| _memory := _memory c; _flags := _flags c; _a := a; _x := _x c;
     _y := _y c; _s := _s c; _pc := _pc c |}.

Definition set_pc (c : Cpu) (pc : Z) : Cpu :=
  {| _memory := _memory c; _flags := _flags c; _a := _a c; _x := _x c;
     _y := _y c; _s := _s c; _pc := pc |}.

(** What the code of one Cpu generator reads and writes: the attributes
    of its Cpu instance and the bytearray of class Memory. *)
Record St : Type := { st_ram : list Z; st_cpu : Cpu }.

(** *** Generators

    Running a generator body from a state ends in one of three ways: it
    returns, it raises, or it reaches a [yield] and hands back the rest
    of the body, to be entered with the state found at the next
    [next()]. *)
Inductive Out (A : Type) : Type :=
| Returned (a : A) (s : St)
| Yielded (s : St) (k : St -> Out A)
| Raised (e : exn) (s : St).

Arguments Returned {A} a s.
Arguments Yielded {A} s k.
Arguments Raised {A} e s.

Definition Gen (A : Type) : Type := St -> Out A.

Definition ret {A} (a : A) : Gen A := fun s => Returned a s.

Fixpoint bind_out {A B} (o : Out A) (f : A -> Gen B) : Out B :=
  match o with
  | Returned a s => f a s
  | Yielded s k => Yielded s (fun s' => bind_out (k s') f)
  | Raised e s => Raised e s
  end.

(** Sequencing; with a generator on the left it is [yield from]. *)
Definition bind {A B} (m : Gen A) (f : A -> Gen B) : Gen B :=
  fun s => bind_out (m s) f.

(** [yield] *)
Definition yield_ : Gen unit := fun s => Yielded s (fun s' => Returned tt s').

Definition raise {A} (e : exn) : Gen A := fun s => Raised e s.

(** A call that reads the state and may raise. *)
Definition call {A} (f : St -> exn + A) : Gen A :=
  fun s => match f s with
           | inl e => Raised e s
           | inr a => Returned a s
           end.

Definition modify (f : St -> St) : Gen unit := fun s => Returned tt (f s).

Declare Scope gen_scope.
Delimit Scope gen_scope with gen.
Notation "'let*' x ':=' m 'in' k" := (bind m (fun x => k))
  (at level 10, x name, m at level 100, k at level 200) : gen_scope.
Notation "m ;; k" := (bind m (fun _ => k))
  (at level 100, k at level 200, right associativity) : gen_scope.
Local Open Scope gen_scope.

Definition with_cpu (f : Cpu -> Cpu) (s : St) : St :=
  {| st_ram := st_ram s; st_cpu := f (st_cpu s) |}.

(** [raise RuntimeError(f"Bad opcode {opcode:2x}")]: a plain function,
    it raises when [run] calls it. *)
Definition _unknown (opcode : Z) : Gen unit :=
  raise (RuntimeError (Bad_opcode opcode)).

Definition _read_pc : Gen Z :=
  let* result := call (fun s => read_byte (_memory (st_cpu s)) (_pc (st_cpu s)) (st_ram s)) in
  yield_ ;;
  modify (with_cpu (fun c => set_pc c (_pc c + 1))) ;;
  ret result.

Definition _read_pc_addr : Gen Z :=
  let* low_addr := _read_pc in
  let* high_addr := _read_pc in
  ret (low_addr + 256 * high_addr).

Definition _setzn (value : Z) : Gen Z :=
  modify (with_cpu (fun c => set_flags c (setzn (_flags c) value))) ;;
  ret (Z.land value 0xff).

Definition _lda_imm (_ : Z) : Gen unit :=
  let* imm := _read_pc in
  let* a := _setzn imm in
  modify (with_cpu (fun c => set_a c a)) ;;
  yield_.

Definition _sta_abs (_ : Z) : Gen unit :=
  let* addr := _read_pc_addr in
  (fun s =>
     match write_byte (_memory (st_cpu s)) addr (_a (st_cpu s)) (st_ram s) with
     | inl e => Raised e s
     | inr ram' => Returned tt {| st_ram := ram'; st_cpu := st_cpu s |}
     end) ;;
  yield_.

Definition set_irq_disable (f : Flags) (b : bool) : Flags :=
  {| zero := zero f; negative := negative f; irq_disable := b;
     decimal := decimal f |}.

Definition set_decimal (f : Flags) (b : bool) : Flags :=
  {| zero := zero f; negative := negative f; irq_disable := irq_disable f;
     decimal := b |}.

Definition _sei (_ : Z) : Gen unit :=
  modify (with_cpu (fun c => set_flags c (set_irq_disable (_flags c) true))) ;;
  yield_.

Definition _cld (_ : Z) : Gen unit :=
  modify (with_cpu (fun c => set_flags c (set_decimal (_flags c) false))) ;;
  yield_.

(** [self._handlers], built in [__init__] and never changed after:
    [256 * [self._unknown]] with four entries replaced. *)
Definition _handlers : list (Z -> Gen unit) :=
  <[0xd8%nat := _cld]>
    (<[0x78%nat := _sei]>
       (<[0x8d%nat := _sta_abs]>
          (<[0xa9%nat := _lda_imm]> (replicate 256 _unknown)))).

(** [l[i]] on a list. *)
Definition list_getitem {A} (l : list A) (i : Z) : exn + A :=
  match py_index (Z.of_nat (length l)) i with
  | inl e => inl e
  | inr j =>
      match l !! j with
      | Some x => inr x
      | None => inl IndexError
      end
  end.

(** [Cpu.__init__]: the flags are fresh, the registers keep the class
    defaults (0) and the program counter is the reset vector. *)
Definition Cpu_init (memory : Memory) (ram : list Z) : exn + Cpu :=
  match read_word memory 0xfffc ram with
  | inl e => inl e
  | inr pc =>
      inr {| _memory := memory; _flags := Flags_new;
             _a := 0; _x := 0; _y := 0; _s := 0; _pc := pc |}
  end.

(** *** The generator [Cpu.run]

    Where the generator made by [cpu.run()] stands between two [next()]
    calls. *)
Inductive Frame : Type :=
| Created                         (* body not entered yet *)
| At_fetch_yield (opcode : Z)     (* suspended at the [yield] of [run] *)
| In_handler (k : St -> Out unit) (* suspended at a [yield] under [yield from] *)
| Finished.                       (* an exception left the body *)

(** One turn of the [while True] body up to its [yield]:
    read the opcode at the program counter, increment it, suspend. *)
Definition fetch (s : St) : St * Frame * option exn :=
  match read_byte (_memory (st_cpu s)) (_pc (st_cpu s)) (st_ram s) with
  | inl e => (s, Finished, Some e)
  | inr opcode =>
      (with_cpu (fun c => set_pc c (_pc c + 1)) s, At_fetch_yield opcode, None)
  end.

(** [yield from] a handler: its yields are the generator's yields, its
    exception leaves [run], and when it returns the loop goes round. *)
Definition delegate (o : Out unit) : St * Frame * option exn :=
  match o with
  | Returned _ s => fetch s
  | Yielded s k => (s, In_handler k, None)
  | Raised e s => (s, Finished, Some e)
  end.

(** [next(g)] for a generator [g = cpu.run()]. *)
Definition resume (f : Frame) (s : St) : St * Frame * option exn :=
  match f with
  | Created => fetch s
  | At_fetch_yield opcode =>
      match list_getitem _handlers opcode with
      | inl e => (s, Finished, Some e)
      | inr handler => delegate (handler opcode s)
      end
  | In_handler k => delegate (k s)
  | Finished => (s, Finished, Some StopIteration)
  end.

(** How many [next()] calls it takes, from a suspended generator, to
    be suspended at the [yield] of [run] again, that is, to have fetched
    the next opcode; [None] when an exception comes first or the fuel
    runs out. *)
Fixpoint steps_to_fetch (fuel : nat) (f : Frame) (s : St) : option nat :=
  match fuel with
  | O => None
  | S fuel' =>
      match resume f s with
      | (_, At_fetch_yield _, None) => Some 1%nat
      | (s', f', None) => option_map S (steps_to_fetch fuel' f' s')
      | (_, _, Some _) => None
      end
  end.

(** The cycle-steps of the instruction at the program counter: the
    [next()] call that fetches its opcode and those after it, up to but
    not including the call that fetches the next opcode.  Each of these
    calls ends at one [yield]. *)
Definition instruction_cycles (fuel : nat) (s : St) : option nat :=
  match fetch s with
  | (s1, f1, None) => steps_to_fetch fuel f1 s1
  | (_, _, Some _) => None
  end.

(** [n] calls of [next(g)], by a caller that stops at the first
    exception. *)
Fixpoint resumes (n : nat) (f : Frame) (s : St) : St * Frame * option exn :=
  match n with
  | O => (s, f, None)
  | S n' =>
      match resume f s with
      | (s', f', None) => resumes n' f' s'
      | (s', f', Some e) => (s', f', Some e)
      end
  end.

(** The state right after a fetch: only the program counter has moved. *)
Definition pc_advanced (s : St) : St :=
  with_cpu (fun c => set_pc c (_pc c + 1)) s.

(** A generator object: the Cpu it is bound to and its frame. *)
Record Generator : Type := { gi_self : Cpu; gi_frame : Frame }.

(** [cpu.run()] only makes the generator object. *)
Definition run (self : Cpu) : Generator :=
  {| gi_self := self; gi_frame := Created |}.

(** ** class Clock *)

Section Clock.
(** The clock only calls [next] on its devices; a device is a
    reference to an iterator living in the heap. *)
Context {Heap Dev : Type}.
Variable next : Dev -> Heap -> Heap * option exn.

Record Clock : Type := { _devices : list Dev }.

(** [iter(device)] of a generator is the generator itself. *)
Definition Clock_init (devices : list Dev) : Clock :=
  {| _devices := devices |}.

(** [for device in self._devices: next(device)].  Besides the heap
    and the exception that stopped the loop, if any, the model
    returns the devices on which [next] was called, in call order. *)
Fixpoint tick_loop (devices : list Dev) (h : Heap)
  : Heap * list Dev * option exn :=
  match devices with
  | [] => (h, [], None)
  | device :: rest =>
      match next device h with
      | (h', Some e) => (h', [device], Some e)
      | (h', None) =>
          let '(h'', called, r) := tick_loop rest h' in
          (h'', device :: called, r)
      end
  end.

Definition tick (self : Clock) (h : Heap) : Heap * list Dev * option exn :=
  tick_loop (_devices self) h.

(** [for cycle in range(n): clock.tick()]: an exception leaves the
    loop. *)
Fixpoint ticks (n : nat) (self : Clock) (h : Heap)
  : Heap * list Dev * option exn :=
  match n with
  | O => (h, [], None)
  | S n' =>
      match tick self h with
      | (h', called, Some e) => (h', called, Some e)
      | (h', called, None) =>
          let '(h'', called', r) := ticks n' self h' in
          (h'', called ++ called', r)
      end
  end.

(** What the clock is held to: [next] called on each device of a list
    in turn, the heap handed from one call to the next.  [Some h'] when
    no call raises, [h'] being the heap after the last call; [None] as
    soon as one raises. *)
Fixpoint step_all (devices : list Dev) (h : Heap) : option Heap :=
  match devices with
  | [] => Some h
  | device :: rest =>
      match next device h with
      | (h', None) => step_all rest h'
      | (_, Some _) => None
      end
  end.

Definition none_raises (devices : list Dev) (h : Heap) : bool :=
  match step_all devices h with
  | Some _ => true
  | None => false
  end.
End Clock.

Arguments Clock : clear implicits.

(** ** The program's heap and [main] *)

(** The bytearray of class Memory and the generator objects; a device
    of the clock is the position of a generator in [generators]. *)
Record Heap : Type := { Memory__ram : list Z; generators : list Generator }.

(** [next(device)] on the heap. *)
Definition next (device : nat) (h : Heap) : Heap * option exn :=
  match generators h !! device with
  | None => (h, Some StopIteration) (* no such object: not reachable *)
  | Some g =>
      let '(s, f, r) :=
        resume (gi_frame g) {| st_ram := Memory__ram h; st_cpu := gi_self g |} in
      ({| Memory__ram := st_ram s;
          generators := <[device := {| gi_self := st_cpu s; gi_frame := f |}]> (generators h) |},
       r)
  end.

(** The heap with one generator, in frame [f], over the state [s]. *)
Definition heap_of (s : St) (f : Frame) : Heap :=
  {| Memory__ram := st_ram s;
     generators := [{| gi_self := st_cpu s; gi_frame := f |}] |}.

(** [load_rom]; the file system is a parameter. *)
Definition load_rom (THIS_DIR : string) (fs : Path -> option (list Z))
    (pathname : string) : exn + list Z :=
  let path := PathJoin THIS_DIR pathname in
  match fs path with
  | None => inl (OSError path)
  | Some data =>
      if negb (Z.of_nat (length data) =? 0x4000)
      then inl (RuntimeError (Bad_ROM_size (Z.of_nat (length data)) path))
      else inr data
  end.

(** The second half of [main]: [cpu = Cpu(memory)],
    [clock = Clock([cpu.run()])] and the loop of [clock.tick()]. *)
Definition main_cpu_clock (memory : Memory) (cycles : nat) (ram : list Z)
  : Heap * option exn :=
  match Cpu_init memory ram with
  | inl e => ({| Memory__ram := ram; generators := [] |}, Some e)
  | inr cpu =>
      let h := {| Memory__ram := ram; generators := [run cpu] |} in
      let clock := Clock_init [0%nat] in
      let '(h', _, r) := ticks next cycles clock h in
      (h', r)
  end.

(** [main], with the number of cycles as a parameter (10000 in the
    source).  It returns the heap it leaves behind and the exception
    that ended it, if any. *)
Definition main (THIS_DIR : string) (fs : Path -> option (list Z))
    (cycles : nat) (ram : list Z) : Heap * option exn :=
  let memory := {| Memory_id := 0 |} in
  match load_rom THIS_DIR fs "os.rom" with
  | inl e => ({| Memory__ram := ram; generators := [] |}, Some e)
  | inr data =>
      match load_os memory data ram with
      | (ram', Some e) => ({| Memory__ram := ram'; generators := [] |}, Some e)
      | (ram', None) => main_cpu_clock memory cycles ram'
      end
  end.

(** ** Concrete inputs for the examples *)

Definition memory1 : Memory := {| Memory_id := 1 |}.
Definition memory2 : Memory := {| Memory_id := 2 |}.

(** The bytearray with [LDA #0x42; STA 0x0000] at 0xC000, the reset
    vector 0xC000 at 0xFFFC and 0xFFFD, and zeros elsewhere. *)
Definition scenario_ram : list Z :=
  <[Z.to_nat 0xfffd := 0xc0]>
    (<[Z.to_nat 0xfffc := 0x00]>
       (<[Z.to_nat 0xc004 := 0x00]>
          (<[Z.to_nat 0xc003 := 0x00]>
             (<[Z.to_nat 0xc002 := 0x8d]>
                (<[Z.to_nat 0xc001 := 0x42]>
                   (<[Z.to_nat 0xc000 := 0xa9]> Memory__ram_initial)))))).

(** The Cpu that [Cpu(memory1)] makes over [scenario_ram], and the
    state its generator starts from. *)
Definition scenario_cpu : Cpu :=
  {| _memory := memory1; _flags := Flags_new;
     _a := 0; _x := 0; _y := 0; _s := 0; _pc := 0xc000 |}.

Definition scenario_state : St :=
  {| st_ram := scenario_ram; st_cpu := scenario_cpu |}.

(** Two Cpus, made over the same bytearray through two Memory
    instances, and their generators, as for
    [Clock([cpu1.run(), cpu2.run()])]. *)
Definition two_cpu_heap (ram : list Z) : exn + Heap :=
  match Cpu_init memory1 ram, Cpu_init memory2 ram with
  | inr cpu1, inr cpu2 =>
      inr {| Memory__ram := ram; generators := [run cpu1; run cpu2] |}
  | inl e, _ => inl e
  | _, inl e => inl e
  end.

(** That heap written out, for a reset vector [pc]. *)
Definition reset_cpu (memory : Memory) (pc : Z) : Cpu :=
  {| _memory := memory; _flags := Flags_new;
     _a := 0; _x := 0; _y := 0; _s := 0; _pc := pc |}.

Definition two_generators (ram : list Z) (pc : Z) : Heap :=
  {| Memory__ram := ram;
     generators := [run (reset_cpu memory1 pc); run (reset_cpu memory2 pc)] |}.

(** An image one byte too long, every byte 1. *)
Definition oversize_image : list Z := replicate (Z.to_nat 0x4001) 1.

(** An image of the right length, and a file system whose every file
    is that image; another one whose every file has three bytes. *)
Definition zero_image : list Z := replicate (Z.to_nat 0x4000) 0.
Definition zero_fs (_ : Path) : option (list Z) := Some zero_image.
Definition short_fs (_ : Path) : option (list Z) := Some [1; 2; 3].

(** A 16384-byte image of zeros with the reset vector 0xC000 at its
    offsets 0x3FFC and 0x3FFD. *)
Definition vector_image : list Z := <[Z.to_nat 0x3ffd := 0xc0]> zero_image.

Definition vector_fs (_ : Path) : option (list Z) := Some vector_image.

(** A heap whose first generator has already raised, with a fresh one
    after it. *)
Definition finished_heap : Heap :=
  {| Memory__ram := Memory__ram_initial;
     generators := [{| gi_self := scenario_cpu; gi_frame := Finished |};
                    run scenario_cpu] |}.

(** States whose program counter points at SEI and at CLD, over a
    bytearray that has 0x78 at 0x0200 and 0xD8 at 0x0201. *)
Definition sei_cld_ram : list Z :=
  <[Z.to_nat 0x0201 := 0xd8]> (<[Z.to_nat 0x0200 := 0x78]> Memory__ram_initial).

Definition sei_state : St :=
  {| st_ram := sei_cld_ram;
     st_cpu := {| _memory := memory1; _flags := Flags_new;
                  _a := 0; _x := 0; _y := 0; _s := 0; _pc := 0x0200 |} |}.

Definition cld_state : St :=
  {| st_ram := sei_cld_ram;
     st_cpu := {| _memory := memory1;
                  _flags := set_irq_disable Flags_new true;
                  _a := 0; _x := 0; _y := 0; _s := 0; _pc := 0x0201 |} |}.

(** The scenario with the program counter at its STA and 0x42 in A. *)
Definition sta_state : St :=
  {| st_ram := scenario_ram;
     st_cpu := {| _memory := memory1; _flags := setzn Flags_new 0x42;
                  _a := 0x42; _x := 0; _y := 0; _s := 0; _pc := 0xc002 |} |}.

(** ** What a run is observed by *)

(** The opcodes that have a handler of their own. *)
Definition implemented (opcode : Z) : bool :=
  (opcode =? 0xa9) || (opcode =? 0x8d) || (opcode =? 0x78) || (opcode =? 0xd8).

(** The state, and the exception if any, after [n] calls of [next] on
    the generator made by [cpu.run()]. *)
Definition state_after (n : nat) (s : St) : St :=
  fst (fst (resumes n Created s)).

Definition raised_after (n : nat) (s : St) : option exn :=
  snd (resumes n Created s).

(** Two bytearrays that agree on their upper half, 0x8000 to 0xFFFF. *)
Definition same_upper_half (ram ram0 : list Z) : Prop :=
  forall a : Z, 0x8000 <= a <= 0xFFFF -> ram !! Z.to_nat a = ram0 !! Z.to_nat a.

(** What a run keeps, relative to the Cpu [c0] and the bytearray
    [ram0] it started with. *)
Definition run_inv (c0 : Cpu) (ram0 : list Z) (s : St) : Prop :=
  ram_ok (st_ram s) = true
  /\ same_upper_half (st_ram s) ram0
  /\ 0 <= _a (st_cpu s) < 256
  /\ _memory (st_cpu s) = _memory c0
  /\ _x (st_cpu s) = _x c0
  /\ _y (st_cpu s) = _y c0
  /\ _s (st_cpu s) = _s c0
  /\ _pc c0 <= _pc (st_cpu s)
  /\ (decimal (_flags c0) = false -> decimal (_flags (st_cpu s)) = false)
  /\ (irq_disable (_flags c0) = true -> irq_disable (_flags (st_cpu s)) = true).

(** A generator body that keeps [P]: it never raises, and [P] holds
    wherever it suspends or returns, provided [P] holds wherever it is
    resumed. *)
Fixpoint out_keeps (P : St -> Prop) (o : Out unit) : Prop :=
  match o with
  | Returned _ s => P s
  | Yielded s k => P s /\ forall s', P s' -> out_keeps P (k s')
  | Raised _ _ => False
  end.

Definition frame_keeps (P : St -> Prop) (f : Frame) : Prop :=
  match f with
  | Created => True
  | At_fetch_yield opcode => 0 <= opcode < 256
  | In_handler k => forall s, P s -> out_keeps P (k s)
  | Finished => False
  end.

(** * Properties *)

(** ** Sequences and the bytearray invariant *)

Lemma py_index_in_range (len i : Z) :
  0 <= i < len -> py_index len i = inr (Z.to_nat i).
Proof.
  intros H. unfold py_index.
  destruct (Z.ltb_spec i 0); [lia|].
  destruct (Z.ltb_spec i 0); [lia|].
  destruct (Z.leb_spec len i); [lia|]. reflexivity.
Qed.

Lemma py_index_negative (len i : Z) :
  - len <= i < 0 -> py_index len i = inr (Z.to_nat (i + len)).
Proof.
  intros H. unfold py_index.
  destruct (Z.ltb_spec i 0); [|lia].
  destruct (Z.ltb_spec (i + len) 0); [lia|].
  destruct (Z.leb_spec len (i + len)); [lia|]. reflexivity.
Qed.

Lemma py_index_too_big (len i : Z) :
  0 <= len <= i -> py_index len i = inl IndexError.
Proof.
  intros H. unfold py_index.
  destruct (Z.ltb_spec i 0); [lia|].
  destruct (Z.ltb_spec i 0); [lia|].
  destruct (Z.leb_spec len i); [|lia]. reflexivity.
Qed.

Lemma is_byte_spec (x : Z) : is_byte x = true <-> 0 <= x < 256.
Proof. unfold is_byte. rewrite andb_true_iff. lia. Qed.

Lemma ram_ok_length (ram : list Z) :
  ram_ok ram = true -> Z.of_nat (length ram) = 65536.
Proof. unfold ram_ok. rewrite andb_true_iff. lia. Qed.

Lemma ram_ok_byte (ram : list Z) (j : nat) (x : Z) :
  ram_ok ram = true -> ram !! j = Some x -> 0 <= x < 256.
Proof.
  unfold ram_ok. rewrite andb_true_iff. intros [_ Hall] Hj.
  rewrite forallb_forall in Hall. apply is_byte_spec, Hall.
  apply list_elem_of_In. eapply list_elem_of_lookup_2; eassumption.
Qed.

Lemma ram_ok_insert (ram : list Z) (j : nat) (v : Z) :
  ram_ok ram = true -> 0 <= v < 256 -> ram_ok (<[j := v]> ram) = true.
Proof.
  intros Hok Hv. pose proof (ram_ok_length _ Hok) as Hlen.
  unfold ram_ok in *. rewrite andb_true_iff in *. destruct Hok as [_ Hall].
  rewrite length_insert. split; [lia|].
  rewrite forallb_forall in *. intros x Hx.
  apply list_elem_of_In, list_elem_of_lookup in Hx. destruct Hx as [i Hi].
  destruct (decide (i = j)) as [->|Hne].
  - destruct (decide (j < length ram)%nat) as [Hlt|Hge].
    + rewrite list_lookup_insert_eq in Hi by exact Hlt.
      injection Hi as <-. apply is_byte_spec, Hv.
    + rewrite list_insert_ge in Hi by lia.
      apply Hall, list_elem_of_In. eapply list_elem_of_lookup_2; eassumption.
  - rewrite list_lookup_insert_ne in Hi by congruence.
    apply Hall, list_elem_of_In. eapply list_elem_of_lookup_2; eassumption.
Qed.

Lemma land_ffff_range (offset : Z) : 0 <= Z.land offset 0xffff < 65536.
Proof.
  change 0xffff with (Z.ones 16). rewrite Z.land_ones by lia.
  change (2 ^ 16) with 65536. apply Z.mod_pos_bound. lia.
Qed.

Lemma land_ffff_id (offset : Z) :
  0 <= offset < 65536 -> Z.land offset 0xffff = offset.
Proof.
  intros H. change 0xffff with (Z.ones 16). rewrite Z.land_ones by lia.
  change (2 ^ 16) with 65536. apply Z.mod_small, H.
Qed.

(** ** Memory *)

Lemma bytearray_getitem_lookup (b : list Z) (i : Z) :
  0 <= i < Z.of_nat (length b) ->
  exists x, b !! Z.to_nat i = Some x /\ bytearray_getitem b i = inr x.
Proof.
  intros H. unfold bytearray_getitem. rewrite py_index_in_range by exact H.
  destruct (lookup_lt_is_Some_2 b (Z.to_nat i)) as [x Hx]; [lia|].
  exists x. rewrite Hx. split; reflexivity.
Qed.

(** [read_byte] never raises, and what it returns is a byte. *)
Lemma read_byte_total (self : Memory) (offset : Z) (ram : list Z) :
  ram_ok ram = true ->
  exists x, read_byte self offset ram = inr x /\ 0 <= x < 256
            /\ ram !! Z.to_nat (Z.land offset 0xffff) = Some x.
Proof.
  intros Hok. pose proof (ram_ok_length _ Hok) as Hlen.
  pose proof (land_ffff_range offset) as Hr.
  destruct (bytearray_getitem_lookup ram (Z.land offset 0xffff)) as (x & Hx & Hg);
    [lia|].
  exists x. split; [exact Hg|]. split; [|exact Hx].
  eapply ram_ok_byte; eassumption.
Qed.

Lemma read_byte_insert_eq (self : Memory) (a v : Z) (ram : list Z) :
  Z.of_nat (length ram) = 65536 -> 0 <= a < 65536 ->
  read_byte self a (<[Z.to_nat a := v]> ram) = inr v.
Proof.
  intros Hlen Ha. unfold read_byte, bytearray_getitem.
  rewrite land_ffff_id by exact Ha. rewrite length_insert.
  rewrite py_index_in_range by lia.
  rewrite list_lookup_insert_eq by lia. reflexivity.
Qed.

Lemma read_byte_insert_ne (self : Memory) (a b v : Z) (ram : list Z) :
  0 <= a < 65536 -> 0 <= b < 65536 -> a <> b ->
  read_byte self b (<[Z.to_nat a := v]> ram) = read_byte self b ram.
Proof.
  intros Ha Hb Hne. unfold read_byte, bytearray_getitem.
  rewrite land_ffff_id by exact Hb. rewrite length_insert.
  destruct (py_index (Z.of_nat (length ram)) b) as [e|j] eqn:Hj; [reflexivity|].
  unfold py_index in Hj. destruct (Z.ltb_spec b 0); [lia|].
  destruct (_ || _); [discriminate|]. injection Hj as <-.
  rewrite list_lookup_insert_ne by lia. reflexivity.
Qed.

Lemma write_byte_ram (self : Memory) (a v : Z) (ram : list Z) :
  Z.of_nat (length ram) = 65536 -> 0 <= a < 0x8000 -> 0 <= v < 256 ->
  write_byte self a v ram = inr (<[Z.to_nat a := v]> ram).
Proof.
  intros Hlen Ha Hv. unfold write_byte, bytearray_setitem.
  destruct (Z.ltb_spec a 0x8000); [|lia].
  destruct (Z.ltb_spec v 0); [lia|]. destruct (Z.ltb_spec 255 v); [lia|].
  cbn [orb]. rewrite py_index_in_range by lia.
  reflexivity.
Qed.

Lemma write_byte_protected (self : Memory) (a v : Z) (ram : list Z) :
  0x8000 <= a -> write_byte self a v ram = inr ram.
Proof.
  intros Ha. unfold write_byte. destruct (Z.ltb_spec a 0x8000); [lia|reflexivity].
Qed.

(** C6: a write to [0x8000, 0xFFFF] changes nothing, so [read_byte]
    there returns what it returned before; a write of a byte to
    [0x0000, 0x7FFF] is stored, and [read_byte] returns it. *)
Theorem write_byte_two_halves (self : Memory) (ram : list Z) (a v : Z) :
  ram_ok ram = true ->
  (0x8000 <= a <= 0xFFFF ->
   exists ram', write_byte self a v ram = inr ram'
                /\ read_byte self a ram' = read_byte self a ram)
  /\ (0x0000 <= a <= 0x7FFF -> 0 <= v < 256 ->
      exists ram', write_byte self a v ram = inr ram'
                   /\ read_byte self a ram' = inr v).
Proof.
  intros Hok. pose proof (ram_ok_length _ Hok) as Hlen. split.
  - intros Ha. exists ram. split; [|reflexivity].
    apply write_byte_protected. lia.
  - intros Ha Hv. exists (<[Z.to_nat a := v]> ram). split.
    + apply write_byte_ram; lia.
    + apply read_byte_insert_eq; lia.
Qed.

Lemma write_byte_two_halves_witness :
  (exists ram', write_byte memory1 0x9000 7 Memory__ram_initial = inr ram'
                /\ read_byte memory1 0x9000 ram'
                   = read_byte memory1 0x9000 Memory__ram_initial)
  /\ (exists ram', write_byte memory1 0x1234 7 Memory__ram_initial = inr ram'
                   /\ read_byte memory1 0x1234 ram' = inr 7).
Proof.
  split.
  - apply (write_byte_two_halves memory1 Memory__ram_initial 0x9000 7);
      [vm_compute; reflexivity | lia].
  - apply (write_byte_two_halves memory1 Memory__ram_initial 0x1234 7);
      [vm_compute; reflexivity | lia | lia].
Defined.

Lemma write_byte_negative (self : Memory) (a v : Z) (ram : list Z) :
  Z.of_nat (length ram) = 65536 -> -65536 <= a < 0 -> 0 <= v < 256 ->
  write_byte self a v ram = inr (<[Z.to_nat (a + 65536) := v]> ram).
Proof.
  intros Hlen Ha Hv. unfold write_byte, bytearray_setitem.
  destruct (Z.ltb_spec a 0x8000); [|lia].
  destruct (Z.ltb_spec v 0); [lia|]. destruct (Z.ltb_spec 255 v); [lia|].
  cbn [orb]. rewrite Hlen, py_index_negative by lia.
  reflexivity.
Qed.

(** C10: [write_byte] does not mask its address.  At or above 0x10000
    the write is dropped, whatever the low 16 bits are, while
    [read_byte] reads at the masked address.  A negative address passes
    the [offset < 0x8000] test and indexes the bytearray from its end:
    from -0x8000 to -1 the byte lands in the protected half, at
    [a + 0x10000]; with [a = -1], [read_byte(0xFFFF)] returns it. *)
Theorem write_byte_does_not_mask (self : Memory) (ram : list Z) (v : Z) :
  ram_ok ram = true ->
  0 <= v < 256 ->
  (forall a, 0x10000 <= a ->
     write_byte self a v ram = inr ram
     /\ read_byte self a ram = read_byte self (Z.land a 0xffff) ram)
  /\ (forall a, -0x8000 <= a < 0 ->
        0x8000 <= a + 0x10000 <= 0xFFFF
        /\ exists ram', write_byte self a v ram = inr ram'
                        /\ read_byte self (a + 0x10000) ram' = inr v)
  /\ (exists ram', write_byte self (-1) v ram = inr ram'
                   /\ read_byte self 0xFFFF ram' = inr v).
Proof.
  intros Hok Hv. pose proof (ram_ok_length _ Hok) as Hlen.
  assert (Hneg : forall a, -0x8000 <= a < 0 ->
            exists ram', write_byte self a v ram = inr ram'
                         /\ read_byte self (a + 0x10000) ram' = inr v).
  { intros a Ha. exists (<[Z.to_nat (a + 65536) := v]> ram). split.
    - apply write_byte_negative; lia.
    - apply read_byte_insert_eq; lia. }
  split; [|split].
  - intros a Ha. split; [apply write_byte_protected; lia|].
    unfold read_byte. f_equal. symmetry. apply land_ffff_id, land_ffff_range.
  - intros a Ha. split; [lia|]. apply Hneg, Ha.
  - apply (Hneg (-1)). lia.
Qed.

Lemma write_byte_does_not_mask_witness :
  (write_byte memory1 0x10005 7 Memory__ram_initial = inr Memory__ram_initial
   /\ read_byte memory1 0x10005 Memory__ram_initial
      = read_byte memory1 (Z.land 0x10005 0xffff) Memory__ram_initial)
  /\ (exists ram', write_byte memory1 (-1) 7 Memory__ram_initial = inr ram'
                   /\ read_byte memory1 0xFFFF ram' = inr 7).
Proof.
  destruct (write_byte_does_not_mask memory1 Memory__ram_initial 7)
    as (Hbig & _ & Hminus1); [vm_compute; reflexivity | lia |].
  split; [apply Hbig; lia | exact Hminus1].
Defined.

(** Every instance of Memory reads what any instance wrote: the
    bytearray belongs to the class. *)
Lemma Memory_instances_share_ram (m1 m2 : Memory) (ram : list Z) (a v : Z) :
  ram_ok ram = true -> 0 <= a < 0x8000 -> 0 <= v < 256 ->
  exists ram', write_byte m1 a v ram = inr ram'
               /\ read_byte m2 a ram' = inr v.
Proof.
  intros Hok Ha Hv. pose proof (ram_ok_length _ Hok) as Hlen.
  exists (<[Z.to_nat a := v]> ram). split.
  - apply write_byte_ram; lia.
  - apply read_byte_insert_eq; lia.
Qed.

(** C3 (the code departs from it): with two instances of Memory over
    the bytearray made by the class body, [read_byte(0)] through the
    second returns 0; after [write_byte(0, 0x42)] through the first, it
    returns 0x42. *)
Theorem Memory_write_seen_through_other_instance :
  memory1 <> memory2
  /\ read_byte memory2 0 Memory__ram_initial = inr 0
  /\ exists ram', write_byte memory1 0 0x42 Memory__ram_initial = inr ram'
                  /\ read_byte memory2 0 ram' = inr 0x42.
Proof.
  split; [discriminate|]. split; [vm_compute; reflexivity|].
  apply Memory_instances_share_ram; [vm_compute; reflexivity | lia | lia].
Qed.

(** ** Flags *)

(** What [setzn] stores: [zero] is the bool [value == 0]; [negative] is
    the int [value & 0x80], 0 or 128, whose truth value is that of
    [(value & 0x80) != 0]. *)
Lemma setzn_stores (self : Flags) (value : Z) :
  zero (setzn self value) = PyBool (value =? 0)
  /\ negative (setzn self value) = PyInt (Z.land value 0x80)
  /\ py_truth (negative (setzn self value)) = negb (Z.land value 0x80 =? 0)
  /\ irq_disable (setzn self value) = irq_disable self
  /\ decimal (setzn self value) = decimal self.
Proof. repeat split. Qed.

(** C4 (the code departs from it): after [setzn(0x80)] the attribute
    [negative] is the int 128: it is not a bool, and it does not compare
    equal to [(0x80 & 0x80) != 0], which is [True].  [zero] is the bool
    [False], as claimed. *)
Theorem setzn_negative_is_an_int :
  let flags := setzn Flags_new 0x80 in
  zero flags = PyBool (0x80 =? 0)
  /\ negative flags = PyInt 128
  /\ py_is_bool (negative flags) = false
  /\ py_eq (negative flags) (PyBool (negb (Z.land 0x80 0x80 =? 0))) = false.
Proof. repeat split. Qed.

(** ** load_os *)

Lemma bytearray_setitem_in_range (b : list Z) (i v : Z) :
  0 <= i < Z.of_nat (length b) -> 0 <= v < 256 ->
  bytearray_setitem b i v = inr (<[Z.to_nat i := v]> b).
Proof.
  intros Hi Hv. unfold bytearray_setitem.
  destruct (Z.ltb_spec v 0); [lia|]. destruct (Z.ltb_spec 255 v); [lia|].
  cbn [orb]. rewrite py_index_in_range by exact Hi.
  reflexivity.
Qed.

Lemma data_byte (data : list Z) (i : nat) (d : Z) :
  forallb is_byte data = true -> data !! i = Some d -> 0 <= d < 256.
Proof.
  intros Hall Hi. rewrite forallb_forall in Hall. apply is_byte_spec, Hall.
  apply list_elem_of_In. eapply list_elem_of_lookup_2; eassumption.
Qed.

(** The loop over [range(k, k + n)], when all its stores are in range:
    it ends without an exception, and the bytearray holds [data[i]] at
    [0xC000 + i] for the [i] of the range and is unchanged elsewhere. *)
Lemma load_os_loop_seq (data : list Z) :
  forallb is_byte data = true ->
  forall (n k : nat) (ram : list Z),
    Z.of_nat (length ram) = 65536 ->
    (k + n <= length data)%nat ->
    0xc000 + Z.of_nat k + Z.of_nat n <= 65536 ->
    exists ram',
      load_os_loop data (seq k n) ram = (ram', None)
      /\ length ram' = length ram
      /\ forall a : Z, 0 <= a ->
           ram' !! Z.to_nat a =
           if (0xc000 + Z.of_nat k <=? a) && (a <? 0xc000 + Z.of_nat k + Z.of_nat n)
           then data !! Z.to_nat (a - 0xc000)
           else ram !! Z.to_nat a.
Proof.
  intros Hdata. induction n as [|n IH]; intros k ram Hlen Hk Hfit.
  - exists ram. split; [reflexivity|]. split; [reflexivity|].
    intros a Ha. destruct (Z.leb_spec (0xc000 + Z.of_nat k) a);
      destruct (Z.ltb_spec a (0xc000 + Z.of_nat k + Z.of_nat 0%nat));
      try reflexivity; lia.
  - cbn [seq load_os_loop].
    destruct (lookup_lt_is_Some_2 data k) as [d Hd]; [lia|].
    rewrite Hd.
    pose proof (data_byte _ _ _ Hdata Hd) as Hbyte.
    rewrite bytearray_setitem_in_range by lia.
    destruct (IH (S k) (<[Z.to_nat (0xc000 + Z.of_nat k) := d]> ram))
      as (ram' & Hrun & Hlen' & Hget).
    { rewrite length_insert. exact Hlen. }
    { lia. }
    { lia. }
    exists ram'. split; [exact Hrun|]. split.
    { rewrite Hlen', length_insert. reflexivity. }
    intros a Ha. rewrite (Hget a Ha).
    destruct (Z.leb_spec (0xc000 + Z.of_nat (S k)) a);
      destruct (Z.ltb_spec a (0xc000 + Z.of_nat (S k) + Z.of_nat n));
      destruct (Z.leb_spec (0xc000 + Z.of_nat k) a);
      destruct (Z.ltb_spec a (0xc000 + Z.of_nat k + Z.of_nat (S n)));
      cbn [andb]; try reflexivity; try lia;
      try (rewrite list_lookup_insert_ne by lia; reflexivity).
    assert (a = 0xc000 + Z.of_nat k) as -> by lia.
    rewrite list_lookup_insert_eq by lia.
    replace (0xc000 + Z.of_nat k - 0xc000) with (Z.of_nat k) by lia.
    rewrite Nat2Z.id. symmetry. exact Hd.
Qed.

Lemma load_os_loop_app (data : list Z) (r1 r2 : list nat) (ram : list Z) :
  load_os_loop data (r1 ++ r2) ram =
  match load_os_loop data r1 ram with
  | (ram', None) => load_os_loop data r2 ram'
  | (ram', Some e) => (ram', Some e)
  end.
Proof.
  revert ram. induction r1 as [|i r1 IH]; intros ram; [reflexivity|].
  cbn [app load_os_loop]. destruct (data !! i) as [d|]; [|reflexivity].
  destruct (bytearray_setitem ram (0xc000 + Z.of_nat i) d) as [e|ram1];
    [reflexivity|]. apply IH.
Qed.

Lemma read_byte_of_lookup (self : Memory) (a x : Z) (ram : list Z) :
  Z.of_nat (length ram) = 65536 -> 0 <= a < 65536 ->
  ram !! Z.to_nat a = Some x -> read_byte self a ram = inr x.
Proof.
  intros Hlen Ha Hx. unfold read_byte, bytearray_getitem.
  rewrite land_ffff_id by exact Ha. rewrite py_index_in_range by lia.
  rewrite Hx. reflexivity.
Qed.

Lemma read_byte_same_lookup (self : Memory) (a : Z) (ram ram' : list Z) :
  length ram' = length ram ->
  ram' !! Z.to_nat (Z.land a 0xffff) = ram !! Z.to_nat (Z.land a 0xffff) ->
  read_byte self a ram' = read_byte self a ram.
Proof.
  intros Hlen Hsame. unfold read_byte, bytearray_getitem. rewrite Hlen.
  destruct (py_index _ _) as [e|j] eqn:Hj; [reflexivity|].
  unfold py_index in Hj. pose proof (land_ffff_range a).
  destruct (Z.ltb_spec (Z.land a 0xffff) 0); [lia|].
  destruct (_ || _); [discriminate|]. injection Hj as <-.
  rewrite Hsame. reflexivity.
Qed.

Lemma load_os_loop_keeps_ok (data ram ram' : list Z) :
  forallb is_byte data = true -> ram_ok ram = true ->
  length ram' = length ram ->
  (forall a : Z, 0 <= a ->
     exists c : bool,
       ram' !! Z.to_nat a
       = if c then data !! Z.to_nat (a - 0xc000) else ram !! Z.to_nat a) ->
  ram_ok ram' = true.
Proof.
  intros Hdata Hok Hlen Hget. pose proof (ram_ok_length _ Hok) as Hl.
  unfold ram_ok. rewrite andb_true_iff. split; [lia|].
  rewrite forallb_forall. intros x Hx.
  apply list_elem_of_In, list_elem_of_lookup in Hx. destruct Hx as [j Hj].
  destruct (Hget (Z.of_nat j)) as [c Hc]; [lia|].
  rewrite Nat2Z.id, Hj in Hc. apply is_byte_spec. destruct c.
  - eapply data_byte; [exact Hdata|]. symmetry. exact Hc.
  - eapply ram_ok_byte; [exact Hok|]. symmetry. exact Hc.
Qed.

(** An image that fits is copied whole. *)
Lemma load_os_fits (self : Memory) (data ram : list Z) :
  ram_ok ram = true -> forallb is_byte data = true ->
  Z.of_nat (length data) <= 0x4000 ->
  exists ram',
    load_os self data ram = (ram', None)
    /\ ram_ok ram' = true
    /\ (forall (i : nat) (d : Z), data !! i = Some d ->
          read_byte self (0xc000 + Z.of_nat i) ram' = inr d)
    /\ (forall a : Z,
          0 <= a < 0xc000 \/ 0xc000 + Z.of_nat (length data) <= a < 0x10000 ->
          read_byte self a ram' = read_byte self a ram).
Proof.
  intros Hok Hdata Hfit. pose proof (ram_ok_length _ Hok) as Hlen.
  destruct (load_os_loop_seq data Hdata (length data) 0%nat ram)
    as (ram' & Hrun & Hlen' & Hget); [exact Hlen | lia | lia |].
  exists ram'. split; [exact Hrun|]. split; [|split].
  - apply (load_os_loop_keeps_ok data ram ram' Hdata Hok Hlen').
    intros a Ha. eexists. apply (Hget a Ha).
  - intros i d Hd. pose proof (lookup_lt_Some _ _ _ Hd) as Hi.
    apply read_byte_of_lookup; [lia | lia |].
    rewrite Hget by lia.
    destruct (Z.leb_spec (0xc000 + Z.of_nat 0%nat) (0xc000 + Z.of_nat i)); [|lia].
    destruct (Z.ltb_spec (0xc000 + Z.of_nat i)
                (0xc000 + Z.of_nat 0%nat + Z.of_nat (length data))); [|lia].
    cbn [andb]. replace (0xc000 + Z.of_nat i - 0xc000) with (Z.of_nat i) by lia.
    rewrite Nat2Z.id. exact Hd.
  - intros a Ha. apply read_byte_same_lookup; [exact Hlen'|].
    rewrite land_ffff_id by lia. rewrite Hget by lia.
    destruct (Z.leb_spec (0xc000 + Z.of_nat 0%nat) a);
      destruct (Z.ltb_spec a (0xc000 + Z.of_nat 0%nat + Z.of_nat (length data)));
      cbn [andb]; try reflexivity; lia.
Qed.

(** An image that is too long: the loop stores its first 0x4000 bytes,
    then the store at index 0x10000 raises IndexError. *)
Lemma load_os_overflows (self : Memory) (data ram : list Z) :
  ram_ok ram = true -> forallb is_byte data = true ->
  0x4000 < Z.of_nat (length data) ->
  exists ram',
    load_os self data ram = (ram', Some IndexError)
    /\ ram_ok ram' = true
    /\ (forall (i : nat) (d : Z), Z.of_nat i < 0x4000 -> data !! i = Some d ->
          read_byte self (0xc000 + Z.of_nat i) ram' = inr d)
    /\ (forall a : Z, 0 <= a < 0xc000 ->
          read_byte self a ram' = read_byte self a ram).
Proof.
  intros Hok Hdata Hlong. pose proof (ram_ok_length _ Hok) as Hlen.
  remember (Z.to_nat 0x4000) as N eqn:HN.
  assert (HNz : Z.of_nat N = 0x4000) by lia. clear HN.
  destruct (load_os_loop_seq data Hdata N 0%nat ram)
    as (ram' & Hrun & Hlen' & Hget); [exact Hlen | lia | lia |].
  exists ram'. split; [|split; [|split]].
  - unfold load_os.
    replace (length data) with (N + S (length data - N - 1))%nat by lia.
    rewrite seq_app, load_os_loop_app, Hrun. cbn [seq load_os_loop].
    destruct (lookup_lt_is_Some_2 data (0 + N)) as [d Hd]; [lia|].
    rewrite Hd. pose proof (data_byte _ _ _ Hdata Hd) as Hbyte.
    unfold bytearray_setitem.
    destruct (Z.ltb_spec d 0); [lia|]. destruct (Z.ltb_spec 255 d); [lia|].
    cbn [orb]. rewrite py_index_too_big by lia. reflexivity.
  - apply (load_os_loop_keeps_ok data ram ram' Hdata Hok Hlen').
    intros a Ha. eexists. apply (Hget a Ha).
  - intros i d Hi Hd. apply read_byte_of_lookup; [lia | lia |].
    rewrite Hget by lia.
    destruct (Z.leb_spec (0xc000 + Z.of_nat 0%nat) (0xc000 + Z.of_nat i)); [|lia].
    destruct (Z.ltb_spec (0xc000 + Z.of_nat i)
                (0xc000 + Z.of_nat 0%nat + Z.of_nat N)); [|lia].
    cbn [andb]. replace (0xc000 + Z.of_nat i - 0xc000) with (Z.of_nat i) by lia.
    rewrite Nat2Z.id. exact Hd.
  - intros a Ha. apply read_byte_same_lookup; [exact Hlen'|].
    rewrite land_ffff_id by lia. rewrite Hget by lia.
    destruct (Z.leb_spec (0xc000 + Z.of_nat 0%nat) a);
      destruct (Z.ltb_spec a (0xc000 + Z.of_nat 0%nat + Z.of_nat N));
      cbn [andb]; try reflexivity; lia.
Qed.

(** C7, as the code has it: [load_os] copies the bytes of the image to
    0xC000 onwards, protected or not, and leaves the other addresses as
    they were.  When the image does not fit ([0xC000 + len > 0x10000])
    it fails with IndexError, raised by the first store past the end:
    the 0x4000 bytes that fit have been stored by then and stay. *)
Theorem load_os_copies_until_the_end_of_memory
    (self : Memory) (data ram : list Z) :
  ram_ok ram = true ->
  forallb is_byte data = true ->
  (0xc000 + Z.of_nat (length data) <= 0x10000 ->
   exists ram',
     load_os self data ram = (ram', None)
     /\ (forall (i : nat) (d : Z), data !! i = Some d ->
           read_byte self (0xc000 + Z.of_nat i) ram' = inr d)
     /\ (forall a : Z,
           0 <= a < 0xc000 \/ 0xc000 + Z.of_nat (length data) <= a < 0x10000 ->
           read_byte self a ram' = read_byte self a ram))
  /\ (0xc000 + Z.of_nat (length data) > 0x10000 ->
      exists ram',
        load_os self data ram = (ram', Some IndexError)
        /\ (forall (i : nat) (d : Z), Z.of_nat i < 0x4000 -> data !! i = Some d ->
              read_byte self (0xc000 + Z.of_nat i) ram' = inr d)
        /\ (forall a : Z, 0 <= a < 0xc000 ->
              read_byte self a ram' = read_byte self a ram)).
Proof.
  intros Hok Hdata. split; intros Hlen.
  - destruct (load_os_fits self data ram Hok Hdata) as (ram' & H1 & _ & H2 & H3);
      [lia|]. exists ram'. auto.
  - destruct (load_os_overflows self data ram Hok Hdata)
      as (ram' & H1 & _ & H2 & H3); [lia|]. exists ram'. auto.
Qed.

Lemma load_os_copies_until_the_end_of_memory_witness :
  (exists ram',
     load_os memory1 [0xa9; 0x42] Memory__ram_initial = (ram', None)
     /\ (forall (i : nat) (d : Z), [0xa9; 0x42] !! i = Some d ->
           read_byte memory1 (0xc000 + Z.of_nat i) ram' = inr d)
     /\ (forall a : Z,
           0 <= a < 0xc000
           \/ 0xc000 + Z.of_nat (length [0xa9; 0x42]) <= a < 0x10000 ->
           read_byte memory1 a ram' = read_byte memory1 a Memory__ram_initial))
  /\ (exists ram',
        load_os memory1 oversize_image Memory__ram_initial
        = (ram', Some IndexError)
        /\ (forall (i : nat) (d : Z),
              Z.of_nat i < 0x4000 -> oversize_image !! i = Some d ->
              read_byte memory1 (0xc000 + Z.of_nat i) ram' = inr d)
        /\ (forall a : Z, 0 <= a < 0xc000 ->
              read_byte memory1 a ram' = read_byte memory1 a Memory__ram_initial)).
Proof.
  split.
  - apply (load_os_copies_until_the_end_of_memory
             memory1 [0xa9; 0x42] Memory__ram_initial);
      [vm_compute; reflexivity | vm_compute; reflexivity | simpl; lia].
  - apply (load_os_copies_until_the_end_of_memory
             memory1 oversize_image Memory__ram_initial);
      [vm_compute; reflexivity | vm_compute; reflexivity |].
    unfold oversize_image. rewrite length_replicate. lia.
Defined.

(** C7 as stated fails: loading the 0x4001-byte image of ones into the
    fresh bytearray raises, and the byte at 0xC000, 0 before, is 1
    after. *)
Lemma load_os_too_long_leaves_partial_copy :
  exists ram',
    load_os memory1 oversize_image Memory__ram_initial = (ram', Some IndexError)
    /\ read_byte memory1 0xc000 Memory__ram_initial = inr 0
    /\ read_byte memory1 0xc000 ram' = inr 1.
Proof.
  destruct (load_os_overflows memory1 oversize_image Memory__ram_initial)
    as (ram' & Hrun & _ & Hcopy & _).
  - vm_compute; reflexivity.
  - vm_compute; reflexivity.
  - unfold oversize_image. rewrite length_replicate. lia.
  - exists ram'. split; [exact Hrun|]. split; [vm_compute; reflexivity|].
    apply (Hcopy 0%nat 1); [lia | vm_compute; reflexivity].
Qed.

(** ** load_rom and the start of main *)

Lemma load_rom_checks_length (THIS_DIR pathname : string)
    (fs : Path -> option (list Z)) (data : list Z) :
  fs (PathJoin THIS_DIR pathname) = Some data ->
  load_rom THIS_DIR fs pathname =
  if Z.of_nat (length data) =? 0x4000 then inr data
  else inl (RuntimeError (Bad_ROM_size (Z.of_nat (length data))
                            (PathJoin THIS_DIR pathname))).
Proof.
  intros Hfs. unfold load_rom. rewrite Hfs.
  destruct (Z.of_nat (length data) =? 0x4000); reflexivity.
Qed.

(** C9: with a file of [data] at the path, [load_rom] returns [data]
    itself when its length is 16384 and otherwise raises the
    RuntimeError that carries the length and the path; [main] then ends
    with that error before [load_os] or [Cpu(...)] has run: the
    bytearray is as it was and no generator exists. *)
Theorem load_rom_accepts_exactly_16384_bytes
    (THIS_DIR pathname : string) (fs : Path -> option (list Z))
    (data : list Z) :
  fs (PathJoin THIS_DIR pathname) = Some data ->
  (length data <> Z.to_nat 16384 ->
   load_rom THIS_DIR fs pathname
   = inl (RuntimeError (Bad_ROM_size (Z.of_nat (length data))
                          (PathJoin THIS_DIR pathname)))
   /\ (pathname = "os.rom"%string ->
       forall (cycles : nat) (ram : list Z),
         main THIS_DIR fs cycles ram
         = ({| Memory__ram := ram; generators := [] |},
            Some (RuntimeError (Bad_ROM_size (Z.of_nat (length data))
                                  (PathJoin THIS_DIR pathname))))))
  /\ (length data = Z.to_nat 16384 ->
      load_rom THIS_DIR fs pathname = inr data).
Proof.
  intros Hfs. rewrite (load_rom_checks_length _ _ _ _ Hfs). split.
  - intros Hlen. destruct (Z.eqb_spec (Z.of_nat (length data)) 0x4000); [lia|].
    split; [reflexivity|]. intros -> cycles ram. unfold main.
    rewrite (load_rom_checks_length _ _ _ _ Hfs).
    destruct (Z.eqb_spec (Z.of_nat (length data)) 0x4000); [lia|]. reflexivity.
  - intros Hlen. destruct (Z.eqb_spec (Z.of_nat (length data)) 0x4000); [|lia].
    reflexivity.
Qed.

Lemma load_rom_accepts_exactly_16384_bytes_witness :
  (load_rom "." short_fs "os.rom"
   = inl (RuntimeError (Bad_ROM_size 3 (PathJoin "." "os.rom")))
   /\ main "." short_fs (Z.to_nat 10000) Memory__ram_initial
      = ({| Memory__ram := Memory__ram_initial; generators := [] |},
         Some (RuntimeError (Bad_ROM_size 3 (PathJoin "." "os.rom")))))
  /\ load_rom "." zero_fs "os.rom" = inr zero_image.
Proof.
  split.
  - destruct (load_rom_accepts_exactly_16384_bytes "." "os.rom" short_fs [1; 2; 3])
      as [Hbad _]; [reflexivity|].
    destruct Hbad as [Hrom Hmain]; [simpl; lia|].
    split; [exact Hrom | apply Hmain; reflexivity].
  - apply (load_rom_accepts_exactly_16384_bytes "." "os.rom" zero_fs zero_image);
      [reflexivity|].
    unfold zero_image. apply length_replicate.
Defined.

(** ** The handlers, cycle by cycle *)

Local Arguments read_byte : simpl never.
Local Arguments write_byte : simpl never.

Lemma handlers_length : Z.of_nat (length _handlers) = 256.
Proof. reflexivity. Qed.

Lemma handler_lda_imm : list_getitem _handlers 0xa9 = inr _lda_imm.
Proof. reflexivity. Qed.

Lemma handler_sta_abs : list_getitem _handlers 0x8d = inr _sta_abs.
Proof. reflexivity. Qed.

Lemma handler_sei : list_getitem _handlers 0x78 = inr _sei.
Proof. reflexivity. Qed.

Lemma handler_cld : list_getitem _handlers 0xd8 = inr _cld.
Proof. reflexivity. Qed.

(** Every other byte is dispatched to [_unknown]. *)
Lemma handler_unknown (opcode : Z) :
  0 <= opcode < 256 ->
  opcode <> 0xa9 -> opcode <> 0x8d -> opcode <> 0x78 -> opcode <> 0xd8 ->
  list_getitem _handlers opcode = inr _unknown.
Proof.
  intros Hr H1 H2 H3 H4. unfold list_getitem.
  rewrite handlers_length, py_index_in_range by exact Hr.
  unfold _handlers.
  rewrite !list_lookup_insert_ne by lia.
  rewrite lookup_replicate_2 by lia. reflexivity.
Qed.

Lemma fetch_reads_opcode (s : St) (opcode : Z) :
  read_byte (_memory (st_cpu s)) (_pc (st_cpu s)) (st_ram s) = inr opcode ->
  fetch s = (pc_advanced s, At_fetch_yield opcode, None).
Proof. intros H. unfold fetch. rewrite H. reflexivity. Qed.

(** Under the invariant a fetch always succeeds and suspends. *)
Lemma fetch_suspends (s : St) :
  ram_ok (st_ram s) = true ->
  exists opcode, 0 <= opcode < 256
    /\ read_byte (_memory (st_cpu s)) (_pc (st_cpu s)) (st_ram s) = inr opcode
    /\ fetch s = (pc_advanced s, At_fetch_yield opcode, None).
Proof.
  intros Hok.
  destruct (read_byte_total (_memory (st_cpu s)) (_pc (st_cpu s)) _ Hok)
    as (opcode & Hread & Hbyte & _).
  exists opcode. split; [exact Hbyte|]. split; [exact Hread|].
  apply fetch_reads_opcode, Hread.
Qed.

(** LDA immediate after its fetch: one [next()] reads the operand and
    suspends in [_read_pc]; the next one increments the program counter,
    sets the flags and the accumulator and suspends at the handler's own
    [yield]; the one after finds the handler returned and fetches. *)
Lemma lda_imm_cycles (s1 : St) (imm : Z) :
  read_byte (_memory (st_cpu s1)) (_pc (st_cpu s1)) (st_ram s1) = inr imm ->
  exists k2 k3,
    resume (At_fetch_yield 0xa9) s1 = (s1, In_handler k2, None)
    /\ (forall s2, resume (In_handler k2) s2 =
          (with_cpu (fun c => set_a (set_flags (set_pc c (_pc c + 1))
                                       (setzn (_flags c) imm))
                                    (Z.land imm 0xff)) s2,
           In_handler k3, None))
    /\ (forall s3, resume (In_handler k3) s3 = fetch s3).
Proof.
  intros H. unfold resume. rewrite handler_lda_imm.
  unfold _lda_imm, _read_pc, bind, call. rewrite H. cbn.
  eexists. eexists. split; [reflexivity|]. split; intros; reflexivity.
Qed.

(** STA absolute after its fetch: two [next()] calls read the address,
    low byte first; the third increments the program counter, stores A
    and suspends at the handler's [yield]; the fourth fetches. *)
Lemma sta_abs_cycles (s1 : St) (lo : Z) :
  read_byte (_memory (st_cpu s1)) (_pc (st_cpu s1)) (st_ram s1) = inr lo ->
  exists k2,
    resume (At_fetch_yield 0x8d) s1 = (s1, In_handler k2, None)
    /\ forall (s2 : St) (hi : Z),
        read_byte (_memory (st_cpu s2)) (_pc (st_cpu s2) + 1) (st_ram s2) = inr hi ->
        exists k3,
          resume (In_handler k2) s2 = (pc_advanced s2, In_handler k3, None)
          /\ forall (s3 : St) (ram' : list Z),
              write_byte (_memory (st_cpu s3)) (lo + 256 * hi) (_a (st_cpu s3))
                (st_ram s3) = inr ram' ->
              exists k4,
                resume (In_handler k3) s3 =
                  ({| st_ram := ram'; st_cpu := set_pc (st_cpu s3) (_pc (st_cpu s3) + 1) |},
                   In_handler k4, None)
                /\ forall s4, resume (In_handler k4) s4 = fetch s4.
Proof.
  intros H. unfold resume. rewrite handler_sta_abs.
  unfold _sta_abs, _read_pc_addr, _read_pc, bind, call. rewrite H. cbn.
  eexists. split; [reflexivity|]. intros s2 hi Hhi.
  cbn. rewrite Hhi. cbn. eexists. split; [reflexivity|]. intros s3 ram' Hw.
  cbn. rewrite Hw. cbn. eexists. split; [reflexivity|]. intros; reflexivity.
Qed.

(** SEI and CLD after their fetch: one [next()] changes the flag and
    suspends, the next one fetches. *)
Lemma sei_cycles (s1 : St) :
  exists k2,
    resume (At_fetch_yield 0x78) s1 =
      (with_cpu (fun c => set_flags c (set_irq_disable (_flags c) true)) s1,
       In_handler k2, None)
    /\ forall s2, resume (In_handler k2) s2 = fetch s2.
Proof.
  unfold resume. rewrite handler_sei. cbn.
  eexists. split; [reflexivity|]. intros; reflexivity.
Qed.

Lemma cld_cycles (s1 : St) :
  exists k2,
    resume (At_fetch_yield 0xd8) s1 =
      (with_cpu (fun c => set_flags c (set_decimal (_flags c) false)) s1,
       In_handler k2, None)
    /\ forall s2, resume (In_handler k2) s2 = fetch s2.
Proof.
  unfold resume. rewrite handler_cld. cbn.
  eexists. split; [reflexivity|]. intros; reflexivity.
Qed.

(** ** Cycle counts *)

Lemma steps_to_fetch_now (fuel : nat) (f : Frame) (s s' : St) (opcode : Z) :
  resume f s = (s', At_fetch_yield opcode, None) ->
  steps_to_fetch (S fuel) f s = Some 1%nat.
Proof. intros H. cbn [steps_to_fetch]. rewrite H. reflexivity. Qed.

Lemma steps_to_fetch_later (fuel : nat) (f : Frame) (s s' : St)
    (k : St -> Out unit) :
  resume f s = (s', In_handler k, None) ->
  steps_to_fetch (S fuel) f s = option_map S (steps_to_fetch fuel (In_handler k) s').
Proof. intros H. cbn [steps_to_fetch]. rewrite H. reflexivity. Qed.

(** LDA immediate (C2) as the code runs it: three cycle-steps, the
    opcode fetch included.  From any state whose program counter points
    at 0xA9, the generator suspends at the fetch [yield], then at the
    [yield] of [_read_pc] with the operand read, then, the accumulator
    and the flags set, at the [yield] that ends [_lda_imm]; the call
    after these three fetches the next opcode. *)
Theorem lda_imm_takes_three_cycles (s : St) :
  ram_ok (st_ram s) = true ->
  read_byte (_memory (st_cpu s)) (_pc (st_cpu s)) (st_ram s) = inr 0xa9 ->
  exists (imm : Z) (k2 k3 : St -> Out unit),
    read_byte (_memory (st_cpu s)) (_pc (st_cpu s) + 1) (st_ram s) = inr imm
    /\ fetch s = (pc_advanced s, At_fetch_yield 0xa9, None)
    /\ resume (At_fetch_yield 0xa9) (pc_advanced s)
       = (pc_advanced s, In_handler k2, None)
    /\ resume (In_handler k2) (pc_advanced s)
       = (with_cpu (fun c => set_a (set_flags (set_pc c (_pc c + 1 + 1))
                                      (setzn (_flags c) imm))
                                   (Z.land imm 0xff)) s,
          In_handler k3, None)
    /\ (forall s3, resume (In_handler k3) s3 = fetch s3)
    /\ forall fuel, instruction_cycles (3 + fuel) s = Some 3%nat.
Proof.
  intros Hok Hop.
  destruct (read_byte_total (_memory (st_cpu s)) (_pc (st_cpu s) + 1) _ Hok)
    as (imm & Himm & _ & _).
  destruct (lda_imm_cycles (pc_advanced s) imm Himm) as (k2 & k3 & H2 & H3 & H4).
  exists imm, k2, k3.
  pose proof (fetch_reads_opcode s _ Hop) as H1.
  split; [exact Himm|]. split; [exact H1|]. split; [exact H2|].
  split; [apply H3|]. split; [exact H4|].
  intros fuel. unfold instruction_cycles. rewrite H1.
  cbn [Nat.add].
  rewrite (steps_to_fetch_later _ _ _ _ _ H2).
  rewrite (steps_to_fetch_later _ _ _ _ _ (H3 (pc_advanced s))).
  match goal with
  | |- context [steps_to_fetch _ _ ?s3] =>
      destruct (fetch_suspends s3 Hok) as (op' & _ & _ & Hf)
  end.
  rewrite <- H4 in Hf.
  rewrite (steps_to_fetch_now _ _ _ _ _ Hf). reflexivity.
Qed.

Lemma lda_imm_takes_three_cycles_witness :
  exists (imm : Z) (k2 k3 : St -> Out unit),
    read_byte memory1 (0xc000 + 1) scenario_ram = inr imm
    /\ fetch scenario_state
       = (pc_advanced scenario_state, At_fetch_yield 0xa9, None)
    /\ resume (At_fetch_yield 0xa9) (pc_advanced scenario_state)
       = (pc_advanced scenario_state, In_handler k2, None)
    /\ resume (In_handler k2) (pc_advanced scenario_state)
       = (with_cpu (fun c => set_a (set_flags (set_pc c (_pc c + 1 + 1))
                                      (setzn (_flags c) imm))
                                   (Z.land imm 0xff)) scenario_state,
          In_handler k3, None)
    /\ (forall s3, resume (In_handler k3) s3 = fetch s3)
    /\ forall fuel, instruction_cycles (3 + fuel) scenario_state = Some 3%nat.
Proof.
  apply (lda_imm_takes_three_cycles scenario_state);
    vm_compute; reflexivity.
Defined.

(** C2 (the code departs from it): in the scenario state, whose program
    counter points at 0xA9, the instruction takes three cycle-steps, not
    two; after two [next()] calls the generator is suspended inside the
    handler and the accumulator is still 0.  The third is the [yield]
    that ends [_lda_imm], which the other handlers need and LDA
    immediate does not. *)
Lemma lda_imm_is_not_done_in_two_cycles :
  read_byte memory1 (_pc scenario_cpu) scenario_ram = inr 0xa9
  /\ instruction_cycles 10 scenario_state = Some 3%nat
  /\ instruction_cycles 10 scenario_state <> Some 2%nat
  /\ match resumes 2 Created scenario_state with
     | (s2, In_handler _, None) => _a (st_cpu s2) = 0
     | _ => False
     end.
Proof.
  split; [vm_compute; reflexivity|].
  assert (H : instruction_cycles 10 scenario_state = Some 3%nat)
    by (vm_compute; reflexivity).
  split; [exact H|]. split; [rewrite H; discriminate|].
  vm_compute. reflexivity.
Qed.

(** The other three handlers: four cycle-steps for STA absolute, two for
    SEI and for CLD. *)
Lemma sta_abs_takes_four_cycles (s : St) (fuel : nat) :
  ram_ok (st_ram s) = true -> 0 <= _a (st_cpu s) < 256 ->
  0 <= _pc (st_cpu s) ->
  read_byte (_memory (st_cpu s)) (_pc (st_cpu s)) (st_ram s) = inr 0x8d ->
  instruction_cycles (4 + fuel) s = Some 4%nat.
Proof.
  intros Hok Ha Hpc Hop.
  destruct (read_byte_total (_memory (st_cpu s)) (_pc (st_cpu s) + 1) _ Hok)
    as (lo & Hlo & Hlob & _).
  destruct (read_byte_total (_memory (st_cpu s)) (_pc (st_cpu s) + 1 + 1) _ Hok)
    as (hi & Hhi & Hhib & _).
  destruct (sta_abs_cycles (pc_advanced s) lo Hlo) as (k2 & H2 & Hrest).
  destruct (Hrest (pc_advanced s) hi Hhi) as (k3 & H3 & Hrest').
  assert (Hw : exists ram',
             write_byte (_memory (st_cpu s)) (lo + 256 * hi) (_a (st_cpu s))
               (st_ram s) = inr ram' /\ ram_ok ram' = true).
  { destruct (Z.ltb_spec (lo + 256 * hi) 0x8000).
    - exists (<[Z.to_nat (lo + 256 * hi) := _a (st_cpu s)]> (st_ram s)). split.
      + apply write_byte_ram; [apply ram_ok_length, Hok | lia | lia].
      + apply ram_ok_insert; [exact Hok | lia].
    - exists (st_ram s). split; [apply write_byte_protected; lia | exact Hok]. }
  destruct Hw as (ram' & Hw & Hok').
  destruct (Hrest' (pc_advanced (pc_advanced s)) ram' Hw) as (k4 & H4 & H5).
  unfold instruction_cycles. rewrite (fetch_reads_opcode s _ Hop).
  cbn [Nat.add].
  rewrite (steps_to_fetch_later _ _ _ _ _ H2).
  rewrite (steps_to_fetch_later _ _ _ _ _ H3).
  rewrite (steps_to_fetch_later _ _ _ _ _ H4).
  match goal with
  | |- context [steps_to_fetch _ _ ?s4] =>
      destruct (fetch_suspends s4 Hok') as (op' & _ & _ & Hf)
  end.
  rewrite <- H5 in Hf.
  rewrite (steps_to_fetch_now _ _ _ _ _ Hf). reflexivity.
Qed.

Lemma sei_takes_two_cycles (s : St) (fuel : nat) :
  ram_ok (st_ram s) = true ->
  read_byte (_memory (st_cpu s)) (_pc (st_cpu s)) (st_ram s) = inr 0x78 ->
  instruction_cycles (2 + fuel) s = Some 2%nat.
Proof.
  intros Hok Hop. destruct (sei_cycles (pc_advanced s)) as (k2 & H2 & H3).
  unfold instruction_cycles. rewrite (fetch_reads_opcode s _ Hop).
  cbn [Nat.add]. rewrite (steps_to_fetch_later _ _ _ _ _ H2).
  match goal with
  | |- context [steps_to_fetch _ _ ?s2] =>
      destruct (fetch_suspends s2 Hok) as (op' & _ & _ & Hf)
  end.
  rewrite <- H3 in Hf. rewrite (steps_to_fetch_now _ _ _ _ _ Hf). reflexivity.
Qed.

Lemma cld_takes_two_cycles (s : St) (fuel : nat) :
  ram_ok (st_ram s) = true ->
  read_byte (_memory (st_cpu s)) (_pc (st_cpu s)) (st_ram s) = inr 0xd8 ->
  instruction_cycles (2 + fuel) s = Some 2%nat.
Proof.
  intros Hok Hop. destruct (cld_cycles (pc_advanced s)) as (k2 & H2 & H3).
  unfold instruction_cycles. rewrite (fetch_reads_opcode s _ Hop).
  cbn [Nat.add]. rewrite (steps_to_fetch_later _ _ _ _ _ H2).
  match goal with
  | |- context [steps_to_fetch _ _ ?s2] =>
      destruct (fetch_suspends s2 Hok) as (op' & _ & _ & Hf)
  end.
  rewrite <- H3 in Hf. rewrite (steps_to_fetch_now _ _ _ _ _ Hf). reflexivity.
Qed.

(** ** Unknown opcodes *)

(** C5: with any byte other than 0xA9, 0x8D, 0x78 and 0xD8 at the
    program counter, the [next()] that fetches it suspends with only the
    program counter changed (incremented); the following [next()],
    whatever the state it is called in, raises the RuntimeError that
    carries the opcode and changes nothing; from then on the generator
    is finished: every [next()] raises StopIteration and changes
    nothing. *)
Theorem unknown_opcode_raises_after_fetch (s : St) (opcode : Z) :
  ram_ok (st_ram s) = true ->
  read_byte (_memory (st_cpu s)) (_pc (st_cpu s)) (st_ram s) = inr opcode ->
  opcode <> 0xa9 -> opcode <> 0x8d -> opcode <> 0x78 -> opcode <> 0xd8 ->
  resume Created s = fetch s
  /\ fetch s =
     ({| st_ram := st_ram s;
         st_cpu := {| _memory := _memory (st_cpu s); _flags := _flags (st_cpu s);
                      _a := _a (st_cpu s); _x := _x (st_cpu s);
                      _y := _y (st_cpu s); _s := _s (st_cpu s);
                      _pc := _pc (st_cpu s) + 1 |} |},
      At_fetch_yield opcode, None)
  /\ (forall s1, resume (At_fetch_yield opcode) s1
                 = (s1, Finished, Some (RuntimeError (Bad_opcode opcode))))
  /\ (forall s2, resume Finished s2 = (s2, Finished, Some StopIteration))
  /\ (forall n s2, resumes (S n) Finished s2 = (s2, Finished, Some StopIteration)).
Proof.
  intros Hok Hop H1 H2 H3 H4.
  destruct (read_byte_total (_memory (st_cpu s)) (_pc (st_cpu s)) _ Hok)
    as (op' & Hop' & Hbyte & _).
  rewrite Hop in Hop'. injection Hop' as <-.
  split; [reflexivity|]. split; [apply fetch_reads_opcode, Hop|].
  split; [|split].
  - intros s1. unfold resume. rewrite handler_unknown by assumption.
    reflexivity.
  - intros s2. reflexivity.
  - intros n s2. reflexivity.
Qed.

Lemma unknown_opcode_raises_after_fetch_witness :
  resume Created {| st_ram := Memory__ram_initial; st_cpu := scenario_cpu |}
  = fetch {| st_ram := Memory__ram_initial; st_cpu := scenario_cpu |}
  /\ fetch {| st_ram := Memory__ram_initial; st_cpu := scenario_cpu |} =
     ({| st_ram := Memory__ram_initial;
         st_cpu := {| _memory := memory1; _flags := Flags_new;
                      _a := 0; _x := 0; _y := 0; _s := 0;
                      _pc := 0xc000 + 1 |} |},
      At_fetch_yield 0, None)
  /\ (forall s1, resume (At_fetch_yield 0) s1
                 = (s1, Finished, Some (RuntimeError (Bad_opcode 0))))
  /\ (forall s2, resume Finished s2 = (s2, Finished, Some StopIteration))
  /\ (forall n s2, resumes (S n) Finished s2 = (s2, Finished, Some StopIteration)).
Proof.
  apply (unknown_opcode_raises_after_fetch
           {| st_ram := Memory__ram_initial; st_cpu := scenario_cpu |} 0);
    [vm_compute; reflexivity | vm_compute; reflexivity
    | lia | lia | lia | lia].
Defined.

(** ** One generator under the clock *)

Lemma next_heap_of (s : St) (f : Frame) :
  next 0 (heap_of s f) =
  let '(s', f', r) := resume f s in (heap_of s' f', r).
Proof.
  unfold next, heap_of. cbn [generators lookup list_lookup gi_frame gi_self Memory__ram].
  destruct s as [ram cpu]. cbn [st_ram st_cpu].
  destruct (resume f {| st_ram := ram; st_cpu := cpu |}) as [[s' f'] r].
  reflexivity.
Qed.

(** [n] ticks of a clock with one generator are [n] calls of its
    [next]. *)
Lemma ticks_heap_of (n : nat) (s : St) (f : Frame) :
  exists called,
    ticks next n (Clock_init [0%nat]) (heap_of s f) =
    let '(s', f', r) := resumes n f s in (heap_of s' f', called, r).
Proof.
  revert s f. induction n as [|n IH]; intros s f.
  - exists []. reflexivity.
  - cbn [ticks tick tick_loop Clock_init _devices resumes].
    rewrite next_heap_of.
    destruct (resume f s) as [[s1 f1] [e|]].
    + exists [0%nat]. reflexivity.
    + destruct (IH s1 f1) as [called Hc]. rewrite Hc.
      destruct (resumes n f1 s1) as [[s' f'] r].
      eexists. reflexivity.
Qed.

Lemma resumes_step (n : nat) (f f' : Frame) (s s' : St) :
  resume f s = (s', f', None) -> resumes (S n) f s = resumes n f' s'.
Proof. intros H. cbn [resumes]. rewrite H. reflexivity. Qed.

Lemma Cpu_init_reset_vector (memory : Memory) (ram : list Z) (pc : Z) :
  read_word memory 0xfffc ram = inr pc ->
  Cpu_init memory ram =
  inr {| _memory := memory; _flags := Flags_new;
         _a := 0; _x := 0; _y := 0; _s := 0; _pc := pc |}.
Proof. intros H. unfold Cpu_init. rewrite H. reflexivity. Qed.

(** The scenario at the level of the generator: where it stands after
    six and after seven [next()] calls. *)
Lemma lda_sta_resumes (memory : Memory) (ram : list Z) :
  ram_ok ram = true ->
  read_byte memory 0xc000 ram = inr 0xa9 ->
  read_byte memory 0xc001 ram = inr 0x42 ->
  read_byte memory 0xc002 ram = inr 0x8d ->
  read_byte memory 0xc003 ram = inr 0x00 ->
  read_byte memory 0xc004 ram = inr 0x00 ->
  let cpu0 := {| _memory := memory; _flags := Flags_new;
                 _a := 0; _x := 0; _y := 0; _s := 0; _pc := 0xc000 |} in
  let loaded pc := {| _memory := memory; _flags := setzn Flags_new 0x42;
                      _a := 0x42; _x := 0; _y := 0; _s := 0; _pc := pc |} in
  exists k6 k7,
    resumes 6 Created {| st_ram := ram; st_cpu := cpu0 |}
    = ({| st_ram := ram; st_cpu := loaded 0xc004 |}, In_handler k6, None)
    /\ resumes 7 Created {| st_ram := ram; st_cpu := cpu0 |}
       = ({| st_ram := <[Z.to_nat 0 := 0x42]> ram; st_cpu := loaded 0xc005 |},
          In_handler k7, None).
Proof.
  intros Hok H0 H1 H2 H3 H4 cpu0 loaded.
  pose proof (ram_ok_length _ Hok) as Hlen.
  set (s0 := {| st_ram := ram; st_cpu := cpu0 |}).
  (* LDA #0x42 *)
  assert (F1 : resume Created s0 = (pc_advanced s0, At_fetch_yield 0xa9, None))
    by (apply (fetch_reads_opcode s0), H0).
  destruct (lda_imm_cycles (pc_advanced s0) 0x42 H1) as (k2 & k3 & F2 & F3 & F4).
  specialize (F3 (pc_advanced s0)).
  set (s3 := {| st_ram := ram; st_cpu := loaded 0xc002 |}).
  change (with_cpu _ (pc_advanced s0)) with s3 in F3.
  (* STA 0x0000 *)
  assert (F4' : resume (In_handler k3) s3
                = (pc_advanced s3, At_fetch_yield 0x8d, None))
    by (rewrite F4; apply (fetch_reads_opcode s3), H2).
  destruct (sta_abs_cycles (pc_advanced s3) 0x00 H3) as (k5 & F5 & Hrest).
  destruct (Hrest (pc_advanced s3) 0x00 H4) as (k6 & F6 & Hrest').
  assert (Hw : write_byte memory (0x00 + 256 * 0x00) 0x42 ram
               = inr (<[Z.to_nat 0 := 0x42]> ram))
    by (apply write_byte_ram; [exact Hlen | lia | lia]).
  destruct (Hrest' (pc_advanced (pc_advanced s3)) _ Hw) as (k7 & F7 & _).
  exists k6, k7. split.
  - rewrite (resumes_step _ _ _ _ _ F1), (resumes_step _ _ _ _ _ F2),
      (resumes_step _ _ _ _ _ F3), (resumes_step _ _ _ _ _ F4'),
      (resumes_step _ _ _ _ _ F5), (resumes_step _ _ _ _ _ F6).
    reflexivity.
  - rewrite (resumes_step _ _ _ _ _ F1), (resumes_step _ _ _ _ _ F2),
      (resumes_step _ _ _ _ _ F3), (resumes_step _ _ _ _ _ F4'),
      (resumes_step _ _ _ _ _ F5), (resumes_step _ _ _ _ _ F6),
      (resumes_step _ _ _ _ _ F7).
    reflexivity.
Qed.

(** The scenario of C1 as the code runs it: with [LDA #0x42; STA 0x0000]
    at 0xC000 and the reset vector pointing there, LDA takes three ticks
    and STA four.
    After six ticks A is 0x42, [zero] is [False] and [negative] is 0
    (equal to [False]), and the bytearray is untouched; the store is
    made by the seventh tick, after which [read_byte(0x0000)] is 0x42. *)
Theorem lda_sta_store_lands_on_seventh_tick (memory : Memory) (ram : list Z) :
  ram_ok ram = true ->
  read_word memory 0xfffc ram = inr 0xc000 ->
  read_byte memory 0xc000 ram = inr 0xa9 ->
  read_byte memory 0xc001 ram = inr 0x42 ->
  read_byte memory 0xc002 ram = inr 0x8d ->
  read_byte memory 0xc003 ram = inr 0x00 ->
  read_byte memory 0xc004 ram = inr 0x00 ->
  (exists h g,
     main_cpu_clock memory 6 ram = (h, None)
     /\ generators h = [g]
     /\ _a (gi_self g) = 0x42
     /\ zero (_flags (gi_self g)) = PyBool false
     /\ py_eq (negative (_flags (gi_self g))) (PyBool false) = true
     /\ Memory__ram h = ram)
  /\ (exists h g,
        main_cpu_clock memory 7 ram = (h, None)
        /\ generators h = [g]
        /\ _a (gi_self g) = 0x42
        /\ zero (_flags (gi_self g)) = PyBool false
        /\ py_eq (negative (_flags (gi_self g))) (PyBool false) = true
        /\ read_byte memory 0x0000 (Memory__ram h) = inr 0x42).
Proof.
  intros Hok Hvec H0 H1 H2 H3 H4.
  destruct (lda_sta_resumes memory ram Hok H0 H1 H2 H3 H4)
    as (k6 & k7 & R6 & R7).
  unfold main_cpu_clock. rewrite (Cpu_init_reset_vector _ _ _ Hvec).
  cbv zeta in *.
  set (s0 := {| st_ram := ram;
                st_cpu := {| _memory := memory; _flags := Flags_new;
                             _a := 0; _x := 0; _y := 0; _s := 0;
                             _pc := 0xc000 |} |}) in *.
  split;
    match goal with
    | |- context [ticks next _ _ ?h] => change h with (heap_of s0 Created)
    end.
  - destruct (ticks_heap_of 6 s0 Created) as [called Hc].
    rewrite Hc, R6. eexists. eexists. split; [reflexivity|].
    repeat split.
  - destruct (ticks_heap_of 7 s0 Created) as [called Hc].
    rewrite Hc, R7. eexists. eexists. split; [reflexivity|].
    split; [reflexivity|]. split; [reflexivity|]. split; [reflexivity|].
    split; [reflexivity|].
    cbn [heap_of Memory__ram st_ram].
    apply (read_byte_insert_eq memory 0 0x42 ram);
      [apply ram_ok_length, Hok | lia].
Qed.

Lemma lda_sta_store_lands_on_seventh_tick_witness :
  (exists h g,
     main_cpu_clock memory1 6 scenario_ram = (h, None)
     /\ generators h = [g]
     /\ _a (gi_self g) = 0x42
     /\ zero (_flags (gi_self g)) = PyBool false
     /\ py_eq (negative (_flags (gi_self g))) (PyBool false) = true
     /\ Memory__ram h = scenario_ram)
  /\ (exists h g,
        main_cpu_clock memory1 7 scenario_ram = (h, None)
        /\ generators h = [g]
        /\ _a (gi_self g) = 0x42
        /\ zero (_flags (gi_self g)) = PyBool false
        /\ py_eq (negative (_flags (gi_self g))) (PyBool false) = true
        /\ read_byte memory1 0x0000 (Memory__ram h) = inr 0x42).
Proof.
  apply (lda_sta_store_lands_on_seventh_tick memory1 scenario_ram);
    vm_compute; reflexivity.
Defined.

(** C1 (the code departs from it): in the scenario, after exactly six
    ticks A is 0x42 but [read_byte(0x0000)] still returns 0, not 0x42.
    [_lda_imm] ends with a [yield] of its own, a third cycle-step where
    LDA immediate has two, so the store of STA comes one tick late. *)
Lemma lda_sta_six_ticks_store_not_made :
  snd (main_cpu_clock memory1 6 scenario_ram) = None
  /\ read_byte memory1 0x0000
       (Memory__ram (fst (main_cpu_clock memory1 6 scenario_ram))) = inr 0
  /\ read_byte memory1 0x0000
       (Memory__ram (fst (main_cpu_clock memory1 6 scenario_ram))) <> inr 0x42
  /\ map (fun g => _a (gi_self g))
       (generators (fst (main_cpu_clock memory1 6 scenario_ram))) = [0x42].
Proof.
  assert (H : read_byte memory1 0x0000
       (Memory__ram (fst (main_cpu_clock memory1 6 scenario_ram))) = inr 0)
    by (vm_compute; reflexivity).
  split; [vm_compute; reflexivity|]. split; [exact H|].
  split; [rewrite H; discriminate|]. vm_compute; reflexivity.
Qed.

(** ** Clock *)

Section ClockProperties.
Context {Heap Dev : Type}.
Variable next : Dev -> Heap -> Heap * option exn.
Variable Dev_eq_dec : forall x y : Dev, {x = y} + {x <> y}.

(** A pass over the devices that meets no exception has called [next]
    on each of them, in order. *)
Lemma tick_loop_all_called (devices : list Dev) (h : Heap) :
  snd (tick_loop next devices h) = None ->
  snd (fst (tick_loop next devices h)) = devices.
Proof.
  revert h. induction devices as [|d rest IH]; intros h; [reflexivity|].
  cbn [tick_loop]. destruct (next d h) as [h' [e|]]; [discriminate|].
  specialize (IH h').
  destruct (tick_loop next rest h') as [[h'' called] r].
  cbn [fst snd] in *. intros Hr. rewrite (IH Hr). reflexivity.
Qed.

(** A pass that meets an exception stops at the device that raised
    it: the devices registered after it are not called. *)
Lemma tick_loop_stops_at_exception (devices : list Dev) (h : Heap) (e : exn) :
  snd (tick_loop next devices h) = Some e ->
  exists before d after,
    devices = before ++ d :: after
    /\ snd (fst (tick_loop next devices h)) = before ++ [d].
Proof.
  revert h. induction devices as [|d rest IH]; intros h; [discriminate|].
  cbn [tick_loop]. destruct (next d h) as [h' [e'|]].
  - intros _. exists [], d, rest. split; reflexivity.
  - specialize (IH h').
    destruct (tick_loop next rest h') as [[h'' called] r].
    cbn [fst snd] in *. intros Hr.
    destruct (IH Hr) as (before & d' & after & Hd & Hc).
    exists (d :: before), d', after. rewrite Hd, Hc. split; reflexivity.
Qed.

Lemma ticks_all_called (n : nat) (self : Clock Dev) (h : Heap) :
  snd (ticks next n self h) = None ->
  snd (fst (ticks next n self h)) = concat (replicate n (_devices self)).
Proof.
  revert h. induction n as [|n IH]; intros h; [reflexivity|].
  cbn [ticks]. unfold tick.
  pose proof (tick_loop_all_called (_devices self) h) as Hpass.
  destruct (tick_loop next (_devices self) h) as [[h' called] [e|]];
    [discriminate|].
  cbn [fst snd] in Hpass. rewrite Hpass by reflexivity.
  specialize (IH h').
  destruct (ticks next n self h') as [[h'' called'] r].
  cbn [fst snd] in *. intros Hr. rewrite (IH Hr). reflexivity.
Qed.

Lemma count_occ_concat_replicate (n : nat) (l : list Dev) (d : Dev) :
  count_occ Dev_eq_dec (concat (replicate n l)) d
  = (n * count_occ Dev_eq_dec l d)%nat.
Proof.
  induction n as [|n IH]; [reflexivity|].
  cbn [replicate concat]. rewrite count_occ_app, IH. reflexivity.
Qed.

Lemma step_all_app (l1 l2 : list Dev) (h : Heap) :
  step_all next (l1 ++ l2) h =
  match step_all next l1 h with
  | Some h1 => step_all next l2 h1
  | None => None
  end.
Proof.
  revert h. induction l1 as [|d l1 IH]; intros h; [reflexivity|].
  cbn [app step_all]. destruct (next d h) as [h' [e|]]; [reflexivity | apply IH].
Qed.

(** When no call raises, the heap reached is the fold of [next]. *)
Lemma step_all_fold (l : list Dev) (h h' : Heap) :
  step_all next l h = Some h' ->
  h' = fold_left (fun g d => fst (next d g)) l h.
Proof.
  revert h. induction l as [|d l IH]; intros h; cbn [step_all fold_left].
  - intros [= <-]. reflexivity.
  - destruct (next d h) as [h1 [e|]]; [discriminate|]. apply IH.
Qed.

(** A pass in which no [next] raises steps every device, in order, and
    returns the heap they leave. *)
Lemma tick_loop_of_step_all (l : list Dev) (h h' : Heap) :
  step_all next l h = Some h' -> tick_loop next l h = (h', l, None).
Proof.
  revert h. induction l as [|d l IH]; intros h; cbn [step_all tick_loop].
  - intros [= <-]. reflexivity.
  - destruct (next d h) as [h1 [e|]]; [discriminate|].
    intros Hs. rewrite (IH h1 Hs). reflexivity.
Qed.

Lemma tick_loop_returned (l : list Dev) (h h' : Heap) (called : list Dev) :
  tick_loop next l h = (h', called, None) ->
  called = l /\ step_all next l h = Some h'.
Proof.
  revert h called. induction l as [|d l IH]; intros h called;
    cbn [step_all tick_loop].
  - intros [= <- <-]. split; reflexivity.
  - destruct (next d h) as [h1 [e|]]; [discriminate|].
    specialize (IH h1).
    destruct (tick_loop next l h1) as [[h2 called2] r].
    intros [= <- <- ->]. destruct (IH called2 eq_refl) as [-> Hs].
    split; [reflexivity | exact Hs].
Qed.

(** A [next] that raises ends the pass: the exception leaves the loop
    with the heap as that call left it, and the devices after it are
    not called. *)
Lemma tick_loop_raise (before after : list Dev) (d : Dev)
    (h0 h1 h2 : Heap) (e : exn) :
  step_all next before h0 = Some h1 ->
  next d h1 = (h2, Some e) ->
  tick_loop next (before ++ d :: after) h0 = (h2, before ++ [d], Some e).
Proof.
  revert h0. induction before as [|b before IH]; intros h0;
    cbn [app step_all tick_loop].
  - intros [= <-] Hd. rewrite Hd. reflexivity.
  - destruct (next b h0) as [h' [e'|]]; [discriminate|].
    intros Hs Hd. rewrite (IH h' Hs Hd). reflexivity.
Qed.

Lemma tick_loop_raised (l : list Dev) (h0 h2 : Heap) (called : list Dev)
    (e : exn) :
  tick_loop next l h0 = (h2, called, Some e) ->
  exists before d after h1,
    l = before ++ d :: after
    /\ step_all next before h0 = Some h1
    /\ next d h1 = (h2, Some e)
    /\ called = before ++ [d].
Proof.
  revert h0 called. induction l as [|b l IH]; intros h0 called;
    cbn [tick_loop]; [discriminate|].
  destruct (next b h0) as [h' [e'|]] eqn:Hb.
  - intros [= <- <- <-]. exists [], b, l, h0. repeat split. exact Hb.
  - specialize (IH h').
    destruct (tick_loop next l h') as [[h'' called'] r].
    intros [= <- <- ->].
    destruct (IH called' eq_refl) as (before & d & after & h1 & -> & Hs & Hd & ->).
    exists (b :: before), d, after, h1. cbn [app step_all]. rewrite Hb.
    repeat split; assumption.
Qed.

Lemma ticks_of_step_all (n : nat) (self : Clock Dev) :
  forall h h' : Heap,
    step_all next (concat (replicate n (_devices self))) h = Some h' ->
    ticks next n self h = (h', concat (replicate n (_devices self)), None).
Proof.
  induction n as [|n IH]; intros h h'; cbn [replicate concat ticks].
  - intros [= <-]. reflexivity.
  - rewrite step_all_app.
    destruct (step_all next (_devices self) h) as [h1|] eqn:H1; [|discriminate].
    intros Hrest. unfold tick. rewrite (tick_loop_of_step_all _ _ _ H1).
    rewrite (IH h1 h' Hrest). reflexivity.
Qed.

Lemma ticks_returned (n : nat) (self : Clock Dev) :
  forall (g g' : Heap) (called : list Dev),
    ticks next n self g = (g', called, None) ->
    called = concat (replicate n (_devices self))
    /\ step_all next (concat (replicate n (_devices self))) g = Some g'.
Proof.
  induction n as [|n IH]; intros g g' called; cbn [replicate concat ticks].
  - intros [= <- <-]. split; reflexivity.
  - unfold tick.
    destruct (tick_loop next (_devices self) g) as [[g1 called1] [e|]] eqn:H1;
      [discriminate|].
    destruct (tick_loop_returned _ _ _ _ H1) as [-> Hs1].
    specialize (IH g1).
    destruct (ticks next n self g1) as [[g2 called2] r].
    intros [= <- <- ->]. destruct (IH g2 called2 eq_refl) as [-> Hs2].
    split; [reflexivity|]. rewrite step_all_app, Hs1. exact Hs2.
Qed.

(** C8, as the code has it.  As long as no [next] raises, [n] calls of
    [tick()] return normally and are exactly the calls of [next] on the
    devices in registration order, [n] rounds of it, each call made in
    the heap the one before left: each device receives [n] cycle-steps
    for each time it is registered, exactly [n] when the devices are
    distinct; and a normal return of [n] calls means just that.  A
    [next] that raises ends the [tick()] it is called in: the exception
    leaves [tick()] (and the loop of ticks) with the heap as that call
    left it, and the devices registered after it are not stepped. *)
Theorem ticks_step_every_device_in_order
    (n : nat) (self : Clock Dev) (h : Heap) :
  none_raises next (concat (replicate n (_devices self))) h = true ->
  (exists h',
     step_all next (concat (replicate n (_devices self))) h = Some h'
     /\ h' = fold_left (fun g d => fst (next d g))
               (concat (replicate n (_devices self))) h
     /\ ticks next n self h
        = (h', concat (replicate n (_devices self)), None))
  /\ (forall d,
        count_occ Dev_eq_dec (snd (fst (ticks next n self h))) d
        = (n * count_occ Dev_eq_dec (_devices self) d)%nat)
  /\ (List.NoDup (_devices self) ->
      forall d, List.In d (_devices self) ->
        count_occ Dev_eq_dec (snd (fst (ticks next n self h))) d = n)
  /\ (forall g g' called,
        ticks next n self g = (g', called, None) ->
        called = concat (replicate n (_devices self))
        /\ step_all next (concat (replicate n (_devices self))) g = Some g')
  /\ (forall before d after h0 h1 h2 e,
        _devices self = before ++ d :: after ->
        step_all next before h0 = Some h1 ->
        next d h1 = (h2, Some e) ->
        tick next self h0 = (h2, before ++ [d], Some e)
        /\ forall m, ticks next (S m) self h0 = (h2, before ++ [d], Some e))
  /\ (forall h0 h2 called e,
        tick next self h0 = (h2, called, Some e) ->
        exists before d after h1,
          _devices self = before ++ d :: after
          /\ step_all next before h0 = Some h1
          /\ next d h1 = (h2, Some e)
          /\ called = before ++ [d]).
Proof.
  intros Hnone. unfold none_raises in Hnone.
  destruct (step_all next (concat (replicate n (_devices self))) h)
    as [h'|] eqn:Hall; [clear Hnone | discriminate].
  pose proof (ticks_of_step_all n self h h' Hall) as Hticks.
  split; [|split; [|split; [|split; [|split]]]].
  - exists h'. split; [reflexivity|]. split; [|exact Hticks].
    apply step_all_fold, Hall.
  - intros d. rewrite Hticks. cbn [fst snd]. apply count_occ_concat_replicate.
  - intros Hnodup d Hin. rewrite Hticks. cbn [fst snd].
    rewrite count_occ_concat_replicate.
    rewrite (proj1 (NoDup_count_occ' Dev_eq_dec (_devices self)) Hnodup d Hin).
    lia.
  - apply ticks_returned.
  - intros before d after h0 h1 h2 e Hdev Hs Hd.
    assert (Ht : tick next self h0 = (h2, before ++ [d], Some e))
      by (unfold tick; rewrite Hdev; apply (tick_loop_raise _ _ _ _ _ _ _ Hs Hd)).
    split; [exact Ht|]. intros m. cbn [ticks]. rewrite Ht. reflexivity.
  - intros h0 h2 called e. unfold tick. apply tick_loop_raised.
Qed.
End ClockProperties.

Lemma two_cpu_heap_written_out (ram : list Z) (pc : Z) :
  read_word memory1 0xfffc ram = inr pc ->
  two_cpu_heap ram = inr (two_generators ram pc).
Proof.
  intros H. unfold two_cpu_heap.
  rewrite (Cpu_init_reset_vector memory1 ram pc H).
  rewrite (Cpu_init_reset_vector memory2 ram pc H). reflexivity.
Qed.

Lemma ticks_step_every_device_in_order_witness :
  two_cpu_heap scenario_ram = inr (two_generators scenario_ram 0xc000)
  /\ (exists h',
        step_all next (concat (replicate 3 [0; 1]%nat))
          (two_generators scenario_ram 0xc000) = Some h'
        /\ h' = fold_left (fun g d => fst (next d g))
                  (concat (replicate 3 [0; 1]%nat))
                  (two_generators scenario_ram 0xc000)
        /\ ticks next 3 (Clock_init [0; 1]%nat)
             (two_generators scenario_ram 0xc000)
           = (h', concat (replicate 3 [0; 1]%nat), None))
  /\ count_occ Nat.eq_dec
       (snd (fst (ticks next 3 (Clock_init [0; 1]%nat)
                    (two_generators scenario_ram 0xc000)))) 1%nat
     = 3%nat.
Proof.
  split; [apply two_cpu_heap_written_out; vm_compute; reflexivity|].
  destruct (ticks_step_every_device_in_order next Nat.eq_dec 3
              (Clock_init [0; 1]%nat) (two_generators scenario_ram 0xc000))
    as (Hsteps & Hcount & _); [vm_compute; reflexivity|].
  split; [exact Hsteps | exact (Hcount 1%nat)].
Defined.

(** C8 as stated fails: two Cpus over the fresh bytearray (reset vector
    0, opcode 0x00 at address 0) under one clock.  The first [tick()]
    steps both; in the second the first generator raises on the unknown
    opcode and the second is not stepped: after two calls of [tick()]
    it has received one cycle-step. *)
Lemma second_device_starved_by_failing_first :
  two_cpu_heap Memory__ram_initial = inr (two_generators Memory__ram_initial 0)
  /\ snd (ticks next 2 (Clock_init [0; 1]%nat)
            (two_generators Memory__ram_initial 0))
     = Some (RuntimeError (Bad_opcode 0))
  /\ snd (fst (ticks next 2 (Clock_init [0; 1]%nat)
                 (two_generators Memory__ram_initial 0)))
     = [0; 1; 0]%nat
  /\ count_occ Nat.eq_dec
       (snd (fst (ticks next 2 (Clock_init [0; 1]%nat)
                    (two_generators Memory__ram_initial 0)))) 1%nat
     <> 2%nat.
Proof.
  split; [apply two_cpu_heap_written_out; vm_compute; reflexivity|].
  split; [vm_compute; reflexivity|].
  assert (H : snd (fst (ticks next 2 (Clock_init [0; 1]%nat)
                          (two_generators Memory__ram_initial 0)))
              = [0; 1; 0]%nat) by (vm_compute; reflexivity).
  split; [exact H|]. rewrite H. vm_compute. discriminate.
Qed.

(** ** What a run keeps *)

Lemma land_255_range (x : Z) : 0 <= Z.land x 0xff < 256.
Proof.
  change 0xff with (Z.ones 8). rewrite Z.land_ones by lia.
  change (2 ^ 8) with 256. apply Z.mod_pos_bound. lia.
Qed.

Lemma same_upper_half_insert_below (ram ram0 : list Z) (a v : Z) :
  0 <= a < 0x8000 -> same_upper_half ram ram0 ->
  same_upper_half (<[Z.to_nat a := v]> ram) ram0.
Proof.
  intros Ha H b Hb. rewrite list_lookup_insert_ne by lia. apply H, Hb.
Qed.

Lemma run_inv_pc_advanced (c0 : Cpu) (ram0 : list Z) (s : St) :
  run_inv c0 ram0 s -> run_inv c0 ram0 (pc_advanced s).
Proof.
  unfold run_inv, pc_advanced. destruct s as [ram c]. cbn.
  intros (H1 & H2 & H3 & H4 & H5 & H6 & H7 & H8 & H9 & H10).
  repeat split; try assumption; lia.
Qed.

Lemma lda_imm_keeps (c0 : Cpu) (ram0 : list Z) (opcode : Z) (s : St) :
  run_inv c0 ram0 s -> out_keeps (run_inv c0 ram0) (_lda_imm opcode s).
Proof.
  intros Hs. pose proof Hs as (Hok & _).
  destruct (read_byte_total (_memory (st_cpu s)) (_pc (st_cpu s)) _ Hok)
    as (imm & Himm & Hbyte & _).
  unfold _lda_imm, _read_pc, bind, call. rewrite Himm. cbn.
  split; [exact Hs|]. intros s' Hs'. split; [|intros s'' Hs''; exact Hs''].
  unfold run_inv in *. destruct s' as [ram' c']. cbn in *.
  destruct Hs' as (H1 & H2 & H3 & H4 & H5 & H6 & H7 & H8 & H9 & H10).
  pose proof (land_255_range imm).
  repeat split; try assumption; lia.
Qed.

Lemma sei_keeps (c0 : Cpu) (ram0 : list Z) (opcode : Z) (s : St) :
  run_inv c0 ram0 s -> out_keeps (run_inv c0 ram0) (_sei opcode s).
Proof.
  intros Hs. cbn. split; [|intros s' Hs'; exact Hs'].
  unfold run_inv in *. destruct s as [ram c]. cbn in *.
  destruct Hs as (H1 & H2 & H3 & H4 & H5 & H6 & H7 & H8 & H9 & H10).
  repeat split; try assumption; lia.
Qed.

Lemma cld_keeps (c0 : Cpu) (ram0 : list Z) (opcode : Z) (s : St) :
  run_inv c0 ram0 s -> out_keeps (run_inv c0 ram0) (_cld opcode s).
Proof.
  intros Hs. cbn. split; [|intros s' Hs'; exact Hs'].
  unfold run_inv in *. destruct s as [ram c]. cbn in *.
  destruct Hs as (H1 & H2 & H3 & H4 & H5 & H6 & H7 & H8 & H9 & H10).
  repeat split; try assumption; lia.
Qed.

(** What [write_byte] does with an address made of two bytes and a byte
    value: it never raises; below 0x8000 it stores, otherwise not. *)
Lemma write_byte_cases (self : Memory) (addr v : Z) (ram : list Z) :
  ram_ok ram = true -> 0 <= addr < 65536 -> 0 <= v < 256 ->
  exists ram',
    write_byte self addr v ram = inr ram'
    /\ ram_ok ram' = true
    /\ (forall ram0, same_upper_half ram ram0 -> same_upper_half ram' ram0)
    /\ ram' = if addr <? 0x8000 then <[Z.to_nat addr := v]> ram else ram.
Proof.
  intros Hok Ha Hv. destruct (Z.ltb_spec addr 0x8000).
  - exists (<[Z.to_nat addr := v]> ram). split; [|split; [|split]].
    + apply write_byte_ram; [apply ram_ok_length, Hok | lia | lia].
    + apply ram_ok_insert; assumption.
    + intros ram0. apply same_upper_half_insert_below. lia.
    + reflexivity.
  - exists ram. split; [apply write_byte_protected; lia|]. auto.
Qed.

Lemma sta_abs_keeps (c0 : Cpu) (ram0 : list Z) (opcode : Z) (s : St) :
  run_inv c0 ram0 s -> out_keeps (run_inv c0 ram0) (_sta_abs opcode s).
Proof.
  intros Hs. pose proof Hs as (Hok & _).
  destruct (read_byte_total (_memory (st_cpu s)) (_pc (st_cpu s)) _ Hok)
    as (lo & Hlo & Hlob & _).
  unfold _sta_abs, _read_pc_addr, _read_pc, bind, call. rewrite Hlo. cbn.
  split; [exact Hs|]. intros s2 Hs2. pose proof Hs2 as (Hok2 & _).
  destruct (read_byte_total (_memory (st_cpu s2)) (_pc (st_cpu s2) + 1) _ Hok2)
    as (hi & Hhi & Hhib & _).
  rewrite Hhi. cbn.
  split; [apply (run_inv_pc_advanced c0 ram0 s2 Hs2)|].
  intros s3 Hs3. pose proof Hs3 as (Hok3 & Hrom3 & Ha3 & _).
  destruct (write_byte_cases (_memory (st_cpu s3)) (lo + 256 * hi)
              (_a (st_cpu s3)) (st_ram s3) Hok3) as (ram' & Hw & Hok' & Hrom' & _);
    [lia | exact Ha3 |].
  rewrite Hw. cbn. split; [|intros s4 Hs4; exact Hs4].
  unfold run_inv in *. destruct s3 as [ram3 c3]. cbn in *.
  destruct Hs3 as (H1 & H2 & H3 & H4 & H5 & H6 & H7 & H8 & H9 & H10).
  repeat split; try assumption; try lia. apply Hrom', H2.
Qed.

Lemma implemented_cases (opcode : Z) :
  implemented opcode = true ->
  opcode = 0xa9 \/ opcode = 0x8d \/ opcode = 0x78 \/ opcode = 0xd8.
Proof. unfold implemented. rewrite !orb_true_iff. lia. Qed.

Lemma not_implemented_cases (opcode : Z) :
  implemented opcode = false ->
  opcode <> 0xa9 /\ opcode <> 0x8d /\ opcode <> 0x78 /\ opcode <> 0xd8.
Proof. unfold implemented. rewrite !orb_false_iff. lia. Qed.

Lemma delegate_keeps (P : St -> Prop) (o : Out unit) :
  (forall s, P s -> ram_ok (st_ram s) = true) ->
  (forall s, P s -> P (pc_advanced s)) ->
  out_keeps P o ->
  match delegate o with
  | (s', f', None) => P s' /\ frame_keeps P f'
  | (_, _, Some _) => False
  end.
Proof.
  intros Hram Hpc Ho. destruct o as [a s | s k | e s]; cbn [delegate out_keeps] in *.
  - destruct (fetch_suspends s (Hram s Ho)) as (op & Hb & _ & Hf).
    rewrite Hf. split; [apply Hpc, Ho | exact Hb].
  - destruct Ho as [Hs Hk]. split; [exact Hs | exact Hk].
  - exact Ho.
Qed.

(** One [next()]: either it suspends, the invariant kept, or it is the
    call after the fetch of an opcode without handler, which raises. *)
Lemma resume_keeps (c0 : Cpu) (ram0 : list Z) (f : Frame) (s : St) :
  run_inv c0 ram0 s -> frame_keeps (run_inv c0 ram0) f ->
  match resume f s with
  | (s', f', None) => run_inv c0 ram0 s' /\ frame_keeps (run_inv c0 ram0) f'
  | (s', f', Some e) =>
      s' = s /\ f' = Finished
      /\ exists opcode, f = At_fetch_yield opcode /\ 0 <= opcode < 256
           /\ implemented opcode = false
           /\ e = RuntimeError (Bad_opcode opcode)
  end.
Proof.
  intros Hs Hf.
  assert (Hram : forall s, run_inv c0 ram0 s -> ram_ok (st_ram s) = true)
    by (intros s1 H1; apply H1).
  pose proof (run_inv_pc_advanced c0 ram0) as Hpc.
  assert (Hdel : forall o, out_keeps (run_inv c0 ram0) o ->
            forall f0,
            match delegate o with
            | (s', f', None) =>
                run_inv c0 ram0 s' /\ frame_keeps (run_inv c0 ram0) f'
            | (s', f', Some e) =>
                s' = s /\ f' = Finished
                /\ exists opcode, f0 = At_fetch_yield opcode /\ 0 <= opcode < 256
                     /\ implemented opcode = false
                     /\ e = RuntimeError (Bad_opcode opcode)
            end).
  { intros o Ho f0. pose proof (delegate_keeps _ o Hram Hpc Ho) as Hd.
    destruct (delegate o) as [[s' f'] [e|]]; [contradiction | exact Hd]. }
  destruct f as [|opcode|k|]; cbn [resume frame_keeps] in *.
  - apply (Hdel (Returned tt s) Hs).
  - destruct (implemented opcode) eqn:Himpl.
    + apply implemented_cases in Himpl.
      destruct Himpl as [-> | [-> | [-> | ->]]].
      * rewrite handler_lda_imm. apply Hdel, lda_imm_keeps, Hs.
      * rewrite handler_sta_abs. apply Hdel, sta_abs_keeps, Hs.
      * rewrite handler_sei. apply Hdel, sei_keeps, Hs.
      * rewrite handler_cld. apply Hdel, cld_keeps, Hs.
    + pose proof (not_implemented_cases _ Himpl) as (N1 & N2 & N3 & N4).
      rewrite handler_unknown by assumption. cbn.
      split; [reflexivity|]. split; [reflexivity|].
      exists opcode. auto.
  - apply Hdel, Hf, Hs.
  - contradiction.
Qed.

Lemma resumes_keeps (c0 : Cpu) (ram0 : list Z) (n : nat) :
  forall (f : Frame) (s : St),
    run_inv c0 ram0 s -> frame_keeps (run_inv c0 ram0) f ->
    run_inv c0 ram0 (fst (fst (resumes n f s)))
    /\ (snd (resumes n f s) = None
        \/ exists opcode, 0 <= opcode < 256 /\ implemented opcode = false
             /\ snd (resumes n f s) = Some (RuntimeError (Bad_opcode opcode))).
Proof.
  induction n as [|n IH]; intros f s Hs Hf.
  - cbn. split; [exact Hs | left; reflexivity].
  - cbn [resumes]. pose proof (resume_keeps c0 ram0 f s Hs Hf) as Hstep.
    destruct (resume f s) as [[s' f'] [e|]].
    + destruct Hstep as (-> & _ & opcode & _ & Hb & Hn & ->). cbn.
      split; [exact Hs|]. right. exists opcode. auto.
    + destruct Hstep as [Hs' Hf']. apply IH; assumption.
Qed.

Lemma run_inv_start (s : St) :
  ram_ok (st_ram s) = true -> 0 <= _a (st_cpu s) < 256 ->
  run_inv (st_cpu s) (st_ram s) s.
Proof.
  intros Hok Ha. unfold run_inv, same_upper_half. repeat split; auto; lia.
Qed.

(** ** More on Memory *)

(** X1: [read_byte] accepts any integer offset: it never raises, it
    returns a byte, and offsets that differ by a multiple of 0x10000
    read the same cell. *)
Theorem read_byte_wraps_modulo_64k (self : Memory) (ram : list Z) (offset : Z) :
  ram_ok ram = true ->
  exists x,
    read_byte self offset ram = inr x
    /\ 0 <= x < 256
    /\ forall k : Z, read_byte self (offset + 0x10000 * k) ram = inr x.
Proof.
  intros Hok.
  destruct (read_byte_total self offset ram Hok) as (x & Hx & Hb & _).
  exists x. split; [exact Hx|]. split; [exact Hb|].
  intros k. rewrite <- Hx. unfold read_byte. f_equal.
  change 0xffff with (Z.ones 16). rewrite !Z.land_ones by lia.
  change (2 ^ 16) with 0x10000.
  rewrite (Z.mul_comm 0x10000 k). apply Z_mod_plus_full.
Qed.

Lemma read_byte_wraps_modulo_64k_witness :
  exists x,
    read_byte memory1 (-1) scenario_ram = inr x
    /\ 0 <= x < 256
    /\ forall k : Z, read_byte memory1 (-1 + 0x10000 * k) scenario_ram = inr x.
Proof.
  apply (read_byte_wraps_modulo_64k memory1 scenario_ram (-1)).
  vm_compute; reflexivity.
Defined.

(** X2: [read_word] never raises and is little-endian: the byte at
    [offset] plus 256 times the byte at [offset + 1], a value below
    0x10000.  The second read is masked on its own, so at 0xFFFF the
    high byte comes from address 0. *)
Theorem read_word_is_little_endian (self : Memory) (ram : list Z) (offset : Z) :
  ram_ok ram = true ->
  exists lo hi,
    read_byte self offset ram = inr lo
    /\ read_byte self (offset + 1) ram = inr hi
    /\ read_word self offset ram = inr (lo + 256 * hi)
    /\ 0 <= lo + 256 * hi < 0x10000
    /\ (offset = 0xFFFF -> read_byte self 0 ram = inr hi).
Proof.
  intros Hok.
  destruct (read_byte_total self offset ram Hok) as (lo & Hlo & Hlob & _).
  destruct (read_byte_total self (offset + 1) ram Hok) as (hi & Hhi & Hhib & _).
  exists lo, hi. split; [exact Hlo|]. split; [exact Hhi|].
  split; [|split].
  - unfold read_word. rewrite Hlo, Hhi. reflexivity.
  - lia.
  - intros ->. rewrite <- Hhi. reflexivity.
Qed.

Lemma read_word_is_little_endian_witness :
  exists lo hi,
    read_byte memory1 0xfffc scenario_ram = inr lo
    /\ read_byte memory1 (0xfffc + 1) scenario_ram = inr hi
    /\ read_word memory1 0xfffc scenario_ram = inr (lo + 256 * hi)
    /\ 0 <= lo + 256 * hi < 0x10000
    /\ (0xfffc = 0xFFFF -> read_byte memory1 0 scenario_ram = inr hi).
Proof.
  apply (read_word_is_little_endian memory1 scenario_ram 0xfffc).
  vm_compute; reflexivity.
Defined.

(** X3: a [write_byte] of a byte at an address of the 16-bit space
    never raises, keeps the bytearray 65536 bytes long, and changes the
    value read at no other address. *)
Theorem write_byte_touches_one_address
    (self : Memory) (ram : list Z) (a v : Z) :
  ram_ok ram = true -> 0 <= a < 0x10000 -> 0 <= v < 256 ->
  exists ram',
    write_byte self a v ram = inr ram'
    /\ ram_ok ram' = true
    /\ forall b, 0 <= b < 0x10000 -> b <> a ->
         read_byte self b ram' = read_byte self b ram.
Proof.
  intros Hok Ha Hv.
  destruct (write_byte_cases self a v ram Hok Ha Hv) as (ram' & Hw & Hok' & _ & Hr).
  exists ram'. split; [exact Hw|]. split; [exact Hok'|].
  intros b Hb Hne. rewrite Hr. destruct (a <? 0x8000); [|reflexivity].
  apply read_byte_insert_ne; lia.
Qed.

Lemma write_byte_touches_one_address_witness :
  exists ram',
    write_byte memory1 0x0200 0x42 scenario_ram = inr ram'
    /\ ram_ok ram' = true
    /\ forall b, 0 <= b < 0x10000 -> b <> 0x0200 ->
         read_byte memory1 b ram' = read_byte memory1 b scenario_ram.
Proof.
  apply (write_byte_touches_one_address memory1 scenario_ram 0x0200 0x42);
    [vm_compute; reflexivity | lia | lia].
Defined.

(** X4: what [write_byte] does with a value that is not a byte and with
    an offset below -0x10000.  The value is only checked when the store
    is attempted: below 0x8000 (down to -0x10000) a value that is not a
    byte raises ValueError, at 0x8000 and above the write is dropped
    without complaint.  An offset below -0x10000 always raises, and
    what it raises with a byte value is IndexError (with a value that is
    not a byte either, which of the two exceptions comes out is the
    interpreter's choice and is not stated). *)
Theorem write_byte_errors (self : Memory) (ram : list Z) (v : Z) :
  ram_ok ram = true -> v < 0 \/ 255 < v ->
  (forall a, - 0x10000 <= a < 0x8000 -> write_byte self a v ram = inl ValueError)
  /\ (forall a, 0x8000 <= a -> write_byte self a v ram = inr ram)
  /\ (forall a w, a < - 0x10000 -> 0 <= w < 256 ->
        write_byte self a w ram = inl IndexError)
  /\ (forall a w, a < - 0x10000 -> exists e, write_byte self a w ram = inl e).
Proof.
  intros Hok Hv. pose proof (ram_ok_length _ Hok) as Hlen.
  assert (Hidx : forall a, a < - 0x10000 -> py_index 65536 a = inl IndexError).
  { intros a Ha. unfold py_index. destruct (Z.ltb_spec a 0); [|lia].
    destruct (Z.ltb_spec (a + 65536) 0); [|lia]. reflexivity. }
  split; [|split; [|split]].
  - intros a Ha. unfold write_byte, bytearray_setitem.
    destruct (Z.ltb_spec a 0x8000); [|lia].
    destruct (Z.ltb_spec v 0); [reflexivity|].
    destruct (Z.ltb_spec 255 v); [reflexivity|lia].
  - intros a Ha. apply write_byte_protected, Ha.
  - intros a w Ha Hw. unfold write_byte, bytearray_setitem.
    destruct (Z.ltb_spec a 0x8000); [|lia].
    destruct (Z.ltb_spec w 0); [lia|]. destruct (Z.ltb_spec 255 w); [lia|].
    cbn [orb]. rewrite Hlen, Hidx by exact Ha. reflexivity.
  - intros a w Ha. unfold write_byte, bytearray_setitem.
    destruct (Z.ltb_spec a 0x8000); [|lia].
    destruct ((w <? 0) || (255 <? w)); [eexists; reflexivity|].
    rewrite Hlen, Hidx by exact Ha. eexists; reflexivity.
Qed.

Lemma write_byte_errors_witness :
  (forall a, - 0x10000 <= a < 0x8000 ->
     write_byte memory1 a 300 scenario_ram = inl ValueError)
  /\ (forall a, 0x8000 <= a -> write_byte memory1 a 300 scenario_ram = inr scenario_ram)
  /\ (forall a w, a < - 0x10000 -> 0 <= w < 256 ->
        write_byte memory1 a w scenario_ram = inl IndexError)
  /\ (forall a w, a < - 0x10000 ->
        exists e, write_byte memory1 a w scenario_ram = inl e).
Proof.
  apply (write_byte_errors memory1 scenario_ram 300);
    [vm_compute; reflexivity | lia].
Defined.

(** X5: the reset vector.  After [load_os] of an image that fits, with
    [lo] at its offset 0x3FFC and [hi] at 0x3FFD, [Cpu(memory)] succeeds:
    the program counter is [lo + 256 * hi], the other registers are 0 and
    the four flags are [False]. *)
Theorem Cpu_starts_at_reset_vector
    (self : Memory) (data ram : list Z) (lo hi : Z) :
  ram_ok ram = true -> forallb is_byte data = true ->
  Z.of_nat (length data) <= 0x4000 ->
  data !! Z.to_nat 0x3ffc = Some lo ->
  data !! Z.to_nat 0x3ffd = Some hi ->
  exists ram',
    load_os self data ram = (ram', None)
    /\ Cpu_init self ram' =
       inr {| _memory := self; _flags := Flags_new;
              _a := 0; _x := 0; _y := 0; _s := 0; _pc := lo + 256 * hi |}
    /\ 0 <= lo + 256 * hi < 0x10000.
Proof.
  intros Hok Hdata Hlen Hlo Hhi.
  destruct (load_os_fits self data ram Hok Hdata Hlen)
    as (ram' & Hload & Hok' & Hcopy & _).
  exists ram'. split; [exact Hload|].
  pose proof (Hcopy _ _ Hlo) as Rlo. pose proof (Hcopy _ _ Hhi) as Rhi.
  replace (0xc000 + Z.of_nat (Z.to_nat 0x3ffc)) with 0xfffc in Rlo by lia.
  replace (0xc000 + Z.of_nat (Z.to_nat 0x3ffd)) with (0xfffc + 1) in Rhi by lia.
  split.
  - apply Cpu_init_reset_vector. unfold read_word. rewrite Rlo, Rhi. reflexivity.
  - pose proof (data_byte _ _ _ Hdata Hlo). pose proof (data_byte _ _ _ Hdata Hhi).
    lia.
Qed.

Lemma Cpu_starts_at_reset_vector_witness :
  exists ram',
    load_os memory1 vector_image Memory__ram_initial = (ram', None)
    /\ Cpu_init memory1 ram' =
       inr {| _memory := memory1; _flags := Flags_new;
              _a := 0; _x := 0; _y := 0; _s := 0; _pc := 0x00 + 256 * 0xc0 |}
    /\ 0 <= 0x00 + 256 * 0xc0 < 0x10000.
Proof.
  apply (Cpu_starts_at_reset_vector memory1 vector_image Memory__ram_initial
           0x00 0xc0); vm_compute; solve [reflexivity | discriminate].
Defined.

(** ** The effect of each instruction *)

Lemma byte_bit7 (v : Z) :
  0 <= v < 256 ->
  Z.land v 0x80 = (if 128 <=? v then 128 else 0) /\ Z.land v 0xff = v.
Proof.
  intros Hv. split.
  - assert (Hall : forallb (fun n => Z.land n 0x80 =? (if 128 <=? n then 128 else 0))
                     (map Z.of_nat (seq 0 256)) = true) by (vm_compute; reflexivity).
    rewrite forallb_forall in Hall. apply Z.eqb_eq, Hall.
    apply in_map_iff. exists (Z.to_nat v). split; [lia|]. apply in_seq. lia.
  - change 0xff with (Z.ones 8). rewrite Z.land_ones by lia.
    apply Z.mod_small. exact Hv.
Qed.

(** X6: LDA immediate.  With 0xA9 at the program counter and [imm]
    after it, three [next()] calls raise nothing and leave A = [imm],
    [zero] the bool [imm == 0], [negative] the int 128 when
    [imm >= 0x80] and 0 otherwise, the program counter two further; the
    other flags and registers and the bytearray are as before. *)
Theorem lda_imm_loads_operand (s : St) (imm : Z) :
  ram_ok (st_ram s) = true ->
  read_byte (_memory (st_cpu s)) (_pc (st_cpu s)) (st_ram s) = inr 0xa9 ->
  read_byte (_memory (st_cpu s)) (_pc (st_cpu s) + 1) (st_ram s) = inr imm ->
  raised_after 3 s = None
  /\ state_after 3 s =
     {| st_ram := st_ram s;
        st_cpu :=
          {| _memory := _memory (st_cpu s);
             _flags := {| zero := PyBool (imm =? 0);
                          negative := PyInt (if 128 <=? imm then 128 else 0);
                          irq_disable := irq_disable (_flags (st_cpu s));
                          decimal := decimal (_flags (st_cpu s)) |};
             _a := imm; _x := _x (st_cpu s); _y := _y (st_cpu s);
             _s := _s (st_cpu s); _pc := _pc (st_cpu s) + 1 + 1 |} |}.
Proof.
  intros Hok Hop Himm.
  destruct (read_byte_total (_memory (st_cpu s)) (_pc (st_cpu s) + 1) _ Hok) as (imm' & Himm' & Hb & _).
  rewrite Himm in Himm'. injection Himm' as <-.
  destruct (byte_bit7 imm Hb) as [Hbit Hmask].
  assert (F1 : resume Created s = (pc_advanced s, At_fetch_yield 0xa9, None))
    by (apply (fetch_reads_opcode s), Hop).
  destruct (lda_imm_cycles (pc_advanced s) imm Himm) as (k2 & k3 & F2 & F3 & _).
  specialize (F3 (pc_advanced s)).
  unfold raised_after, state_after.
  rewrite (resumes_step _ _ _ _ _ F1), (resumes_step _ _ _ _ _ F2),
    (resumes_step _ _ _ _ _ F3).
  cbn [resumes fst snd]. split; [reflexivity|].
  unfold with_cpu, pc_advanced, set_a, set_flags, set_pc, setzn.
  cbn [st_ram st_cpu _memory _flags _a _x _y _s _pc].
  rewrite Hbit, Hmask. reflexivity.
Qed.

Lemma lda_imm_loads_operand_witness :
  raised_after 3 scenario_state = None
  /\ state_after 3 scenario_state =
     {| st_ram := scenario_ram;
        st_cpu :=
          {| _memory := memory1;
             _flags := {| zero := PyBool (0x42 =? 0);
                          negative := PyInt (if 128 <=? 0x42 then 128 else 0);
                          irq_disable := false; decimal := false |};
             _a := 0x42; _x := 0; _y := 0; _s := 0; _pc := 0xc000 + 1 + 1 |} |}.
Proof.
  apply (lda_imm_loads_operand scenario_state 0x42); vm_compute; reflexivity.
Defined.

(** X7: STA absolute.  With 0x8D at the program counter and the address
    bytes [lo], [hi] after it, four [next()] calls raise nothing and
    leave the program counter three further and the Cpu otherwise as it
    was.  When [lo + 256 * hi] is below 0x8000 the accumulator is stored
    there; otherwise the bytearray is unchanged. *)
Theorem sta_abs_stores_accumulator (s : St) (lo hi : Z) :
  ram_ok (st_ram s) = true -> 0 <= _a (st_cpu s) < 256 ->
  read_byte (_memory (st_cpu s)) (_pc (st_cpu s)) (st_ram s) = inr 0x8d ->
  read_byte (_memory (st_cpu s)) (_pc (st_cpu s) + 1) (st_ram s) = inr lo ->
  read_byte (_memory (st_cpu s)) (_pc (st_cpu s) + 1 + 1) (st_ram s) = inr hi ->
  raised_after 4 s = None
  /\ state_after 4 s =
     {| st_ram := if lo + 256 * hi <? 0x8000
                  then <[Z.to_nat (lo + 256 * hi) := _a (st_cpu s)]> (st_ram s)
                  else st_ram s;
        st_cpu := set_pc (st_cpu s) (_pc (st_cpu s) + 1 + 1 + 1) |}
  /\ (lo + 256 * hi < 0x8000 ->
      read_byte (_memory (st_cpu s)) (lo + 256 * hi) (st_ram (state_after 4 s))
      = inr (_a (st_cpu s))).
Proof.
  intros Hok Ha Hop Hlo Hhi.
  destruct (read_byte_total (_memory (st_cpu s)) (_pc (st_cpu s) + 1) _ Hok) as (lo' & Hlo' & Hlob & _).
  rewrite Hlo in Hlo'. injection Hlo' as <-.
  destruct (read_byte_total (_memory (st_cpu s)) (_pc (st_cpu s) + 1 + 1) _ Hok) as (hi' & Hhi' & Hhib & _).
  rewrite Hhi in Hhi'. injection Hhi' as <-.
  assert (F1 : resume Created s = (pc_advanced s, At_fetch_yield 0x8d, None))
    by (apply (fetch_reads_opcode s), Hop).
  destruct (sta_abs_cycles (pc_advanced s) lo Hlo) as (k2 & F2 & Hrest).
  destruct (Hrest (pc_advanced s) hi Hhi) as (k3 & F3 & Hrest').
  destruct (write_byte_cases (_memory (st_cpu s)) (lo + 256 * hi) (_a (st_cpu s))
              (st_ram s) Hok) as (ram' & Hw & _ & _ & Hram'); [lia | exact Ha |].
  destruct (Hrest' (pc_advanced (pc_advanced s)) ram' Hw) as (k4 & F4 & _).
  assert (Hstate : state_after 4 s =
            {| st_ram := ram';
               st_cpu := set_pc (st_cpu s) (_pc (st_cpu s) + 1 + 1 + 1) |}).
  { unfold state_after.
    rewrite (resumes_step _ _ _ _ _ F1), (resumes_step _ _ _ _ _ F2),
      (resumes_step _ _ _ _ _ F3), (resumes_step _ _ _ _ _ F4). reflexivity. }
  split; [|split].
  - unfold raised_after.
    rewrite (resumes_step _ _ _ _ _ F1), (resumes_step _ _ _ _ _ F2),
      (resumes_step _ _ _ _ _ F3), (resumes_step _ _ _ _ _ F4). reflexivity.
  - rewrite Hstate, Hram'. reflexivity.
  - intros Hlt. rewrite Hstate, Hram'. cbn [st_ram].
    destruct (Z.ltb_spec (lo + 256 * hi) 0x8000); [|lia].
    apply read_byte_insert_eq; [apply ram_ok_length, Hok | lia].
Qed.

Lemma sta_abs_stores_accumulator_witness :
  raised_after 4 sta_state = None
  /\ state_after 4 sta_state =
     {| st_ram := if 0 + 256 * 0 <? 0x8000
                  then <[Z.to_nat (0 + 256 * 0) := 0x42]> scenario_ram
                  else scenario_ram;
        st_cpu := set_pc (st_cpu sta_state) (0xc002 + 1 + 1 + 1) |}
  /\ (0 + 256 * 0 < 0x8000 ->
      read_byte memory1 (0 + 256 * 0) (st_ram (state_after 4 sta_state))
      = inr 0x42).
Proof.
  apply (sta_abs_stores_accumulator sta_state 0 0);
    [vm_compute; reflexivity | cbn; lia | vm_compute; reflexivity
    | vm_compute; reflexivity | vm_compute; reflexivity].
Defined.

(** X8: SEI.  With 0x78 at the program counter, two [next()] calls
    raise nothing and leave [irq_disable] true and the program counter
    one further; everything else is as before. *)
Theorem sei_sets_irq_disable (s : St) :
  read_byte (_memory (st_cpu s)) (_pc (st_cpu s)) (st_ram s) = inr 0x78 ->
  raised_after 2 s = None
  /\ state_after 2 s =
     {| st_ram := st_ram s;
        st_cpu :=
          {| _memory := _memory (st_cpu s);
             _flags := {| zero := zero (_flags (st_cpu s));
                          negative := negative (_flags (st_cpu s));
                          irq_disable := true;
                          decimal := decimal (_flags (st_cpu s)) |};
             _a := _a (st_cpu s); _x := _x (st_cpu s); _y := _y (st_cpu s);
             _s := _s (st_cpu s); _pc := _pc (st_cpu s) + 1 |} |}.
Proof.
  intros Hop. assert (F1 : resume Created s = (pc_advanced s, At_fetch_yield 0x78, None))
    by (apply (fetch_reads_opcode s), Hop).
  destruct (sei_cycles (pc_advanced s)) as (k2 & F2 & _).
  unfold raised_after, state_after.
  rewrite (resumes_step _ _ _ _ _ F1), (resumes_step _ _ _ _ _ F2).
  split; reflexivity.
Qed.

Lemma sei_sets_irq_disable_witness :
  raised_after 2 sei_state = None
  /\ state_after 2 sei_state =
     {| st_ram := sei_cld_ram;
        st_cpu :=
          {| _memory := memory1;
             _flags := {| zero := PyBool false; negative := PyBool false;
                          irq_disable := true; decimal := false |};
             _a := 0; _x := 0; _y := 0; _s := 0; _pc := 0x0200 + 1 |} |}.
Proof.
  apply (sei_sets_irq_disable sei_state). vm_compute; reflexivity.
Defined.

(** X9: CLD.  With 0xD8 at the program counter, two [next()] calls
    raise nothing and leave [decimal] false and the program counter one
    further; everything else is as before. *)
Theorem cld_clears_decimal (s : St) :
  read_byte (_memory (st_cpu s)) (_pc (st_cpu s)) (st_ram s) = inr 0xd8 ->
  raised_after 2 s = None
  /\ state_after 2 s =
     {| st_ram := st_ram s;
        st_cpu :=
          {| _memory := _memory (st_cpu s);
             _flags := {| zero := zero (_flags (st_cpu s));
                          negative := negative (_flags (st_cpu s));
                          irq_disable := irq_disable (_flags (st_cpu s));
                          decimal := false |};
             _a := _a (st_cpu s); _x := _x (st_cpu s); _y := _y (st_cpu s);
             _s := _s (st_cpu s); _pc := _pc (st_cpu s) + 1 |} |}.
Proof.
  intros Hop. assert (F1 : resume Created s = (pc_advanced s, At_fetch_yield 0xd8, None))
    by (apply (fetch_reads_opcode s), Hop).
  destruct (cld_cycles (pc_advanced s)) as (k2 & F2 & _).
  unfold raised_after, state_after.
  rewrite (resumes_step _ _ _ _ _ F1), (resumes_step _ _ _ _ _ F2).
  split; reflexivity.
Qed.

Lemma cld_clears_decimal_witness :
  raised_after 2 cld_state = None
  /\ state_after 2 cld_state =
     {| st_ram := sei_cld_ram;
        st_cpu :=
          {| _memory := memory1;
             _flags := {| zero := PyBool false; negative := PyBool false;
                          irq_disable := true; decimal := false |};
             _a := 0; _x := 0; _y := 0; _s := 0; _pc := 0x0201 + 1 |} |}.
Proof.
  apply (cld_clears_decimal cld_state). vm_compute; reflexivity.
Defined.

(** ** What no run does *)

Lemma same_upper_half_read_byte (self : Memory) (ram ram' : list Z) (a : Z) :
  ram_ok ram = true -> ram_ok ram' = true -> same_upper_half ram' ram ->
  0x8000 <= a <= 0xFFFF ->
  read_byte self a ram' = read_byte self a ram.
Proof.
  intros Hok Hok' Hsame Ha.
  pose proof (ram_ok_length _ Hok) as Hlen. pose proof (ram_ok_length _ Hok') as Hlen'.
  apply read_byte_same_lookup; [lia|].
  rewrite land_ffff_id by lia. apply Hsame, Ha.
Qed.

(** X10: under [next()] the generator of a Cpu raises nothing but the
    RuntimeError of an opcode without handler.  Whatever the program in
    memory and however many calls are made, the calls up to the first
    exception end without one or with [Bad opcode] for a byte other than
    0xA9, 0x8D, 0x78 and 0xD8; no IndexError or ValueError comes out of
    the memory accesses. *)
Theorem run_raises_only_bad_opcode (n : nat) (s : St) :
  ram_ok (st_ram s) = true -> 0 <= _a (st_cpu s) < 256 ->
  raised_after n s = None
  \/ exists opcode,
       0 <= opcode < 256 /\ implemented opcode = false
       /\ raised_after n s = Some (RuntimeError (Bad_opcode opcode)).
Proof.
  intros Hok Ha.
  apply (resumes_keeps (st_cpu s) (st_ram s) n Created s);
    [apply run_inv_start; assumption | exact I].
Qed.

Lemma run_raises_only_bad_opcode_witness :
  raised_after 9 scenario_state = None
  \/ exists opcode,
       0 <= opcode < 256 /\ implemented opcode = false
       /\ raised_after 9 scenario_state = Some (RuntimeError (Bad_opcode opcode)).
Proof.
  apply (run_raises_only_bad_opcode 9 scenario_state);
    [vm_compute; reflexivity | cbn; lia].
Defined.

(** X11: no run writes to 0x8000..0xFFFF: after any number of
    [next()] calls, [read_byte] returns there what it returned at the
    start.  (STA is the only store, its address is made of two bytes,
    and [write_byte] drops it from 0x8000 on.) *)
Theorem run_never_changes_upper_half (n : nat) (s : St) (a : Z) :
  ram_ok (st_ram s) = true -> 0 <= _a (st_cpu s) < 256 ->
  0x8000 <= a <= 0xFFFF ->
  read_byte (_memory (st_cpu s)) a (st_ram (state_after n s))
  = read_byte (_memory (st_cpu s)) a (st_ram s).
Proof.
  intros Hok Ha Hrange.
  destruct (resumes_keeps (st_cpu s) (st_ram s) n Created s)
    as [(Hok' & Hrom & _) _]; [apply run_inv_start; assumption | exact I |].
  apply same_upper_half_read_byte; assumption.
Qed.

Lemma run_never_changes_upper_half_witness :
  read_byte memory1 0xc001 (st_ram (state_after 9 scenario_state))
  = read_byte memory1 0xc001 scenario_ram.
Proof.
  apply (run_never_changes_upper_half 9 scenario_state 0xc001);
    [vm_compute; reflexivity | cbn; lia | lia].
Defined.

(** X12: a run keeps the bytearray 65536 bytes long and the accumulator
    a byte. *)
Theorem run_keeps_bytes (n : nat) (s : St) :
  ram_ok (st_ram s) = true -> 0 <= _a (st_cpu s) < 256 ->
  ram_ok (st_ram (state_after n s)) = true
  /\ 0 <= _a (st_cpu (state_after n s)) < 256.
Proof.
  intros Hok Ha.
  destruct (resumes_keeps (st_cpu s) (st_ram s) n Created s)
    as [(Hok' & _ & Ha' & _) _]; [apply run_inv_start; assumption | exact I |].
  split; assumption.
Qed.

Lemma run_keeps_bytes_witness :
  ram_ok (st_ram (state_after 9 scenario_state)) = true
  /\ 0 <= _a (st_cpu (state_after 9 scenario_state)) < 256.
Proof.
  apply (run_keeps_bytes 9 scenario_state); [vm_compute; reflexivity | cbn; lia].
Defined.

(** X13: no instruction writes X, Y or S or rebinds the memory, and the
    program counter never goes down (it is only ever incremented, and
    never masked). *)
Theorem run_keeps_index_registers (n : nat) (s : St) :
  ram_ok (st_ram s) = true -> 0 <= _a (st_cpu s) < 256 ->
  _x (st_cpu (state_after n s)) = _x (st_cpu s)
  /\ _y (st_cpu (state_after n s)) = _y (st_cpu s)
  /\ _s (st_cpu (state_after n s)) = _s (st_cpu s)
  /\ _memory (st_cpu (state_after n s)) = _memory (st_cpu s)
  /\ _pc (st_cpu s) <= _pc (st_cpu (state_after n s)).
Proof.
  intros Hok Ha.
  destruct (resumes_keeps (st_cpu s) (st_ram s) n Created s)
    as [(_ & _ & _ & Hm & Hx & Hy & Hs & Hpc & _) _];
    [apply run_inv_start; assumption | exact I |].
  auto.
Qed.

Lemma run_keeps_index_registers_witness :
  _x (st_cpu (state_after 9 scenario_state)) = 0
  /\ _y (st_cpu (state_after 9 scenario_state)) = 0
  /\ _s (st_cpu (state_after 9 scenario_state)) = 0
  /\ _memory (st_cpu (state_after 9 scenario_state)) = memory1
  /\ 0xc000 <= _pc (st_cpu (state_after 9 scenario_state)).
Proof.
  apply (run_keeps_index_registers 9 scenario_state);
    [vm_compute; reflexivity | cbn; lia].
Defined.

(** X14: the two directly set flags move one way only: no instruction
    sets [decimal], so once false it stays false, and no instruction
    clears [irq_disable], so once true it stays true. *)
Theorem run_flags_move_one_way (n : nat) (s : St) :
  ram_ok (st_ram s) = true -> 0 <= _a (st_cpu s) < 256 ->
  (decimal (_flags (st_cpu s)) = false ->
   decimal (_flags (st_cpu (state_after n s))) = false)
  /\ (irq_disable (_flags (st_cpu s)) = true ->
      irq_disable (_flags (st_cpu (state_after n s))) = true).
Proof.
  intros Hok Ha.
  destruct (resumes_keeps (st_cpu s) (st_ram s) n Created s)
    as [(_ & _ & _ & _ & _ & _ & _ & _ & Hd & Hi) _];
    [apply run_inv_start; assumption | exact I |].
  split; assumption.
Qed.

Lemma run_flags_move_one_way_witness :
  (decimal (_flags (st_cpu cld_state)) = false ->
   decimal (_flags (st_cpu (state_after 5 cld_state))) = false)
  /\ (irq_disable (_flags (st_cpu cld_state)) = true ->
      irq_disable (_flags (st_cpu (state_after 5 cld_state))) = true).
Proof.
  apply (run_flags_move_one_way 5 cld_state);
    [vm_compute; reflexivity | cbn; lia].
Defined.

(** ** The clock and main, once more *)

Lemma next_on_finished (h : Heap) (d : nat) (g : Generator) :
  generators h !! d = Some g -> gi_frame g = Finished ->
  next d h = (h, Some StopIteration).
Proof.
  intros Hd Hf. unfold next. rewrite Hd, Hf. cbn.
  destruct h as [ram gens]. destruct g as [c f]. cbn in *. subst f.
  rewrite (list_insert_id gens d _ Hd). reflexivity.
Qed.

(** X15: a generator that has raised stops the clock for good.  When
    the first device of a clock is a finished generator, every call of
    [tick()] raises StopIteration at it, changes nothing, and does not
    reach the devices registered after it. *)
Theorem finished_generator_stops_the_clock
    (h : Heap) (d : nat) (g : Generator) (after : list nat) (n : nat) :
  generators h !! d = Some g -> gi_frame g = Finished ->
  tick next (Clock_init (d :: after)) h = (h, [d], Some StopIteration)
  /\ ticks next (S n) (Clock_init (d :: after)) h = (h, [d], Some StopIteration).
Proof.
  intros Hd Hf.
  assert (Ht : tick next (Clock_init (d :: after)) h = (h, [d], Some StopIteration)).
  { unfold tick. cbn [Clock_init _devices tick_loop].
    rewrite (next_on_finished h d g Hd Hf). reflexivity. }
  split; [exact Ht|]. cbn [ticks]. rewrite Ht. reflexivity.
Qed.

Lemma finished_generator_stops_the_clock_witness :
  tick next (Clock_init [0; 1]%nat) finished_heap
  = (finished_heap, [0%nat], Some StopIteration)
  /\ ticks next 3 (Clock_init [0; 1]%nat) finished_heap
     = (finished_heap, [0%nat], Some StopIteration).
Proof.
  apply (finished_generator_stops_the_clock finished_heap 0
           {| gi_self := scenario_cpu; gi_frame := Finished |} [1%nat] 2);
    reflexivity.
Defined.

Section ClockComposition.
Context {Heap Dev : Type}.
Variable next : Dev -> Heap -> Heap * option exn.

(** X16: the loop of ticks composes: [m + n] calls of [tick()] are [m]
    calls followed, unless one of them raised, by [n] calls from the
    heap they left; the devices called are those of both parts. *)
Theorem ticks_add (m n : nat) (self : Clock Dev) (h : Heap) :
  ticks next (m + n) self h =
  match ticks next m self h with
  | (h', called, None) =>
      let '(h'', called', r) := ticks next n self h' in
      (h'', called ++ called', r)
  | (h', called, Some e) => (h', called, Some e)
  end.
Proof.
  revert h. induction m as [|m IH]; intros h.
  - cbn [Nat.add ticks]. destruct (ticks next n self h) as [[h'' called'] r].
    reflexivity.
  - cbn [Nat.add ticks]. destruct (tick next self h) as [[h1 called1] [e|]];
      [reflexivity|].
    rewrite IH. destruct (ticks next m self h1) as [[h2 called2] [e|]];
      [reflexivity|].
    destruct (ticks next n self h2) as [[h3 called3] r].
    rewrite app_assoc. reflexivity.
Qed.
End ClockComposition.

Lemma read_word_total (self : Memory) (offset : Z) (ram : list Z) :
  ram_ok ram = true -> exists w, read_word self offset ram = inr w.
Proof.
  intros Hok.
  destruct (read_byte_total self offset ram Hok) as (lo & Hlo & _).
  destruct (read_byte_total self (offset + 1) ram Hok) as (hi & Hhi & _).
  exists (lo + 256 * hi). unfold read_word. rewrite Hlo, Hhi. reflexivity.
Qed.

(** The second half of [main] in terms of the generator. *)
Lemma main_cpu_clock_resumes (memory : Memory) (cycles : nat) (ram : list Z) (pc : Z) :
  read_word memory 0xfffc ram = inr pc ->
  let s0 := {| st_ram := ram;
               st_cpu := {| _memory := memory; _flags := Flags_new;
                            _a := 0; _x := 0; _y := 0; _s := 0; _pc := pc |} |} in
  snd (main_cpu_clock memory cycles ram) = raised_after cycles s0
  /\ Memory__ram (fst (main_cpu_clock memory cycles ram))
     = st_ram (state_after cycles s0).
Proof.
  intros Hvec s0. unfold main_cpu_clock.
  rewrite (Cpu_init_reset_vector _ _ _ Hvec). cbv zeta.
  match goal with
  | |- context [ticks next _ _ ?h] => change h with (heap_of s0 Created)
  end.
  destruct (ticks_heap_of cycles s0 Created) as [called Hc]. rewrite Hc.
  unfold raised_after, state_after.
  destruct (resumes cycles Created s0) as [[s' f'] r]. split; reflexivity.
Qed.

(** X17: [main] with a well-formed ROM file.  When the file holds 16384
    bytes, [main] gets through [load_rom], [load_os] and [Cpu(...)]
    without an exception and then either runs all its cycles or stops on
    the RuntimeError of an opcode without handler; whichever it is, the
    image is still in memory at 0xC000 onwards afterwards. *)
Theorem main_runs_a_valid_image
    (THIS_DIR : string) (fs : Path -> option (list Z)) (cycles : nat)
    (ram data : list Z) :
  fs (PathJoin THIS_DIR "os.rom") = Some data ->
  Z.of_nat (length data) = 0x4000 ->
  forallb is_byte data = true ->
  ram_ok ram = true ->
  (snd (main THIS_DIR fs cycles ram) = None
   \/ exists opcode,
        0 <= opcode < 256 /\ implemented opcode = false
        /\ snd (main THIS_DIR fs cycles ram)
           = Some (RuntimeError (Bad_opcode opcode)))
  /\ forall (self : Memory) (i : nat) (d : Z),
       data !! i = Some d ->
       read_byte self (0xc000 + Z.of_nat i)
         (Memory__ram (fst (main THIS_DIR fs cycles ram))) = inr d.
Proof.
  intros Hfs Hlen Hdata Hok. unfold main.
  rewrite (load_rom_checks_length _ _ _ _ Hfs).
  destruct (Z.eqb_spec (Z.of_nat (length data)) 0x4000); [|lia].
  set (memory := {| Memory_id := 0 |}).
  destruct (load_os_fits memory data ram Hok Hdata) as (ram' & Hload & Hok' & Hcopy & _);
    [lia|].
  rewrite Hload.
  destruct (read_word_total memory 0xfffc ram' Hok') as (pc & Hvec).
  destruct (main_cpu_clock_resumes memory cycles ram' pc Hvec) as [Hr Hm].
  cbv zeta in Hr, Hm. rewrite Hr, Hm.
  match type of Hr with
  | _ = raised_after _ ?s => set (s0 := s) in *
  end.
  assert (Hinv : run_inv (st_cpu s0) (st_ram s0) s0)
    by (apply run_inv_start; [exact Hok' | cbn; lia]).
  destruct (resumes_keeps (st_cpu s0) (st_ram s0) cycles Created s0 Hinv I)
    as [(Hok'' & Hrom & _) Hexn].
  split; [exact Hexn|].
  intros self i d Hd. pose proof (lookup_lt_Some _ _ _ Hd) as Hi.
  rewrite <- (Hcopy i d Hd).
  apply (same_upper_half_read_byte memory (st_ram s0) (st_ram (state_after cycles s0))
           (0xc000 + Z.of_nat i) Hok' Hok'' Hrom). lia.
Qed.

Lemma main_runs_a_valid_image_witness :
  (snd (main "." vector_fs 3 Memory__ram_initial) = None
   \/ exists opcode,
        0 <= opcode < 256 /\ implemented opcode = false
        /\ snd (main "." vector_fs 3 Memory__ram_initial)
           = Some (RuntimeError (Bad_opcode opcode)))
  /\ forall (self : Memory) (i : nat) (d : Z),
       vector_image !! i = Some d ->
       read_byte self (0xc000 + Z.of_nat i)
         (Memory__ram (fst (main "." vector_fs 3 Memory__ram_initial))) = inr d.
Proof.
  apply (main_runs_a_valid_image "." vector_fs 3 Memory__ram_initial vector_image);
    [reflexivity | vm_compute; reflexivity | vm_compute; reflexivity
    | vm_compute; reflexivity].
Defined.

(** ** Operand fetch and the remaining cycle counts *)

(** X18: the 16-bit operand fetch [_read_pc_addr] suspends exactly
    twice.  The low byte is read at the program counter before the first
    [yield]; on resumption the program counter is incremented and the
    high byte is read, from the state found then, before the second
    [yield]; on the next resumption the program counter is incremented
    again and [low + 256 * high] is returned. *)
Theorem read_pc_addr_takes_two_cycles (s : St) (lo : Z) :
  read_byte (_memory (st_cpu s)) (_pc (st_cpu s)) (st_ram s) = inr lo ->
  exists k1,
    _read_pc_addr s = Yielded s k1
    /\ forall (s1 : St) (hi : Z),
        read_byte (_memory (st_cpu s1)) (_pc (st_cpu s1) + 1) (st_ram s1) = inr hi ->
        exists k2,
          k1 s1 = Yielded (pc_advanced s1) k2
          /\ forall s2, k2 s2 = Returned (lo + 256 * hi) (pc_advanced s2).
Proof.
  intros Hlo. unfold _read_pc_addr, _read_pc, bind, call. rewrite Hlo. cbn.
  eexists. split; [reflexivity|]. intros s1 hi Hhi. cbn. rewrite Hhi. cbn.
  eexists. split; [reflexivity|]. intros s2. reflexivity.
Qed.

Lemma read_pc_addr_takes_two_cycles_witness :
  exists k1,
    _read_pc_addr (pc_advanced sta_state) = Yielded (pc_advanced sta_state) k1
    /\ forall (s1 : St) (hi : Z),
        read_byte (_memory (st_cpu s1)) (_pc (st_cpu s1) + 1) (st_ram s1) = inr hi ->
        exists k2,
          k1 s1 = Yielded (pc_advanced s1) k2
          /\ forall s2, k2 s2 = Returned (0 + 256 * hi) (pc_advanced s2).
Proof.
  apply (read_pc_addr_takes_two_cycles (pc_advanced sta_state) 0).
  vm_compute; reflexivity.
Defined.

(** X19: the cycle-steps of the other three instructions, opcode fetch
    included: four for STA absolute, two for SEI and two for CLD. *)
Theorem sta_sei_cld_cycle_counts (s : St) (fuel : nat) :
  ram_ok (st_ram s) = true -> 0 <= _a (st_cpu s) < 256 ->
  (read_byte (_memory (st_cpu s)) (_pc (st_cpu s)) (st_ram s) = inr 0x8d ->
   instruction_cycles (4 + fuel) s = Some 4%nat)
  /\ (read_byte (_memory (st_cpu s)) (_pc (st_cpu s)) (st_ram s) = inr 0x78 ->
      instruction_cycles (2 + fuel) s = Some 2%nat)
  /\ (read_byte (_memory (st_cpu s)) (_pc (st_cpu s)) (st_ram s) = inr 0xd8 ->
      instruction_cycles (2 + fuel) s = Some 2%nat).
Proof.
  intros Hok Ha. split; [|split].
  - intros Hop.
    destruct (read_byte_total (_memory (st_cpu s)) (_pc (st_cpu s) + 1) _ Hok)
      as (lo & Hlo & Hlob & _).
    destruct (read_byte_total (_memory (st_cpu s)) (_pc (st_cpu s) + 1 + 1) _ Hok)
      as (hi & Hhi & Hhib & _).
    destruct (sta_abs_cycles (pc_advanced s) lo Hlo) as (k2 & H2 & Hrest).
    destruct (Hrest (pc_advanced s) hi Hhi) as (k3 & H3 & Hrest').
    destruct (write_byte_cases (_memory (st_cpu s)) (lo + 256 * hi) (_a (st_cpu s))
                (st_ram s) Hok) as (ram' & Hw & Hok' & _); [lia | exact Ha |].
    destruct (Hrest' (pc_advanced (pc_advanced s)) ram' Hw) as (k4 & H4 & H5).
    unfold instruction_cycles. rewrite (fetch_reads_opcode s _ Hop).
    cbn [Nat.add].
    rewrite (steps_to_fetch_later _ _ _ _ _ H2).
    rewrite (steps_to_fetch_later _ _ _ _ _ H3).
    rewrite (steps_to_fetch_later _ _ _ _ _ H4).
    match goal with
    | |- context [steps_to_fetch _ _ ?s4] =>
        destruct (fetch_suspends s4 Hok') as (op' & _ & _ & Hf)
    end.
    rewrite <- H5 in Hf.
    rewrite (steps_to_fetch_now _ _ _ _ _ Hf). reflexivity.
  - intros Hop. apply sei_takes_two_cycles; assumption.
  - intros Hop. apply cld_takes_two_cycles; assumption.
Qed.

Lemma sta_sei_cld_cycle_counts_witness :
  instruction_cycles (4 + 0) sta_state = Some 4%nat
  /\ instruction_cycles (2 + 0) sei_state = Some 2%nat
  /\ instruction_cycles (2 + 0) cld_state = Some 2%nat.
Proof.
  split; [|split].
  - destruct (sta_sei_cld_cycle_counts sta_state 0) as (H & _ & _);
      [vm_compute; reflexivity | cbn; lia |].
    apply H. vm_compute; reflexivity.
  - destruct (sta_sei_cld_cycle_counts sei_state 0) as (_ & H & _);
      [vm_compute; reflexivity | cbn; lia |].
    apply H. vm_compute; reflexivity.
  - destruct (sta_sei_cld_cycle_counts cld_state 0) as (_ & _ & H);
      [vm_compute; reflexivity | cbn; lia |].
    apply H. vm_compute; reflexivity.
Defined.
